(** * Task generation for one bundle (lib/bundle.js)

    A shallow embedding of [generate] from lib/bundle.js: the function that,
    for one bundle of the configuration, registers the Gulp tasks that build,
    test and run it.

    - Gulp's task table and the module-level [styleTasks] array are the
      mutable state; they live in a [World] threaded through a small
      state-and-exception monad [Gen].
    - The file system ([fs.existsSync], [glob.sync]) is a parameter of the
      development; closed examples instantiate it with a list of files and a
      reference matcher for the two wildcards the patterns of this file use.
    - The function given to [gulp.task] is a closure that hands fixed
      arguments to a collaborator ([code], [styles], [templates], [images],
      [karma], [gulp.src]); it is represented by the call it makes, with its
      arguments. *)

From Stdlib Require Import ZArith Ascii.
From stdpp Require Import base option list strings.

Local Open Scope Z_scope.

(** ** JavaScript values and the helpers the source uses *)

(** An optional key of a configuration object: [None] is [undefined]. *)
Definition is_undefined {A : Type} (o : option A) : bool :=
  match o with None => true | Some _ => false end.

(** Truthiness of an optional boolean key. *)
Definition truthy (o : option bool) : bool :=
  match o with Some v => v | None => false end.

Fixpoint string_drop (n : nat) (s : string) : string :=
  match n, s with
  | O, _ => s
  | S n', String _ s' => string_drop n' s'
  | S _, EmptyString => EmptyString
  end.

(** [s.replace(pat, rep)] with a string pattern: the first occurrence only. *)
Fixpoint replace (pat rep s : string) : string :=
  if String.prefix pat s then rep +:+ string_drop (String.length pat) s
  else match s with
       | EmptyString => EmptyString
       | String c s' => String c (replace pat rep s')
       end.

Fixpoint indexOf_from (needle s : string) (i : Z) : Z :=
  if String.prefix needle s then i
  else match s with
       | EmptyString => -1
       | String _ s' => indexOf_from needle s' (i + 1)
       end.

(** [s.indexOf(needle)]: position of the first occurrence, [-1] if none. *)
Definition indexOf (s needle : string) : Z := indexOf_from needle s 0.

(** [_.map(collection, f)]: an [undefined] collection maps to [[]]. *)
Definition lodash_map {A B : Type} (xs : option (list A)) (f : A → B) : list B :=
  match xs with Some l => map f l | None => [] end.

(** [_.find(collection, p)]: the first element that satisfies [p]. *)
Fixpoint lodash_find {A : Type} (xs : list A) (p : A → bool) : option A :=
  match xs with
  | [] => None
  | x :: xs' => if p x then Some x else lodash_find xs' p
  end.

(** [_.intersection(xs, ys)]: the values of [xs] that are also in [ys], in
    the order of [xs], each value once (lodash skips a value that the result
    already holds). [acc] is the result built so far. *)
Fixpoint intersection_from (acc xs ys : list string) : list string :=
  match xs with
  | [] => acc
  | x :: xs' =>
      if decide (x ∈ acc) then intersection_from acc xs' ys
      else if decide (x ∈ ys) then intersection_from (acc ++ [x]) xs' ys
      else intersection_from acc xs' ys
  end.

Definition lodash_intersection (xs ys : list string) : list string :=
  intersection_from [] xs ys.

(** ** Configuration objects (README, section Options) *)

(** The [run] sub-configuration; bundle.js only tests its presence and hands
    the bundle to [run.generate]. *)
Record RunConfig := mkRunConfig {
  port : option Z;
  host : option string;
  https : option bool
}.

Module Bundle.
Record t := mk {
  name : string;
  root : string;
  dependencies : option (list string);
  angular : option bool;
  library : option bool;
  minify : option bool;
  beforeBuild : option (list string);
  assetFolders : option (list string);
  globals : option (list (string * string));
  run : option RunConfig
}.
End Bundle.

Module Config.
Record t := mk {
  minify : option bool;
  beforeClean : option (list string);
  bundles : list Bundle.t
}.
End Config.

(** The bundle with its [angular] key set. *)
Definition with_angular (a : option bool) (b : Bundle.t) : Bundle.t :=
  Bundle.mk (Bundle.name b) (Bundle.root b) (Bundle.dependencies b) a (Bundle.library b)
    (Bundle.minify b) (Bundle.beforeBuild b) (Bundle.assetFolders b) (Bundle.globals b)
    (Bundle.run b).

(** ** Tasks *)

(** An entry of karma's [files] option. *)
Inductive KarmaFile :=
| KPath (path : string)
| KPattern (pattern : string) (included : bool).

(** The configuration object given to [new karma.Server]. [configFile] holds
    the argument of [path.resolve]; a key that the object literal does not
    set is [None]. *)
Record KarmaConfig := mkKarmaConfig {
  configFile : string;
  browsers : list string;
  files : list KarmaFile;
  singleRun : option bool
}.

(** The [transform] option of gulp-inject in the task [spec:inject]: the
    line written for one spec file. *)
Definition inject_transform (filepath : string) : string :=
  "import '../.." +:+ filepath +:+ "';".

(** What the function of a task does when Gulp runs it. [SpecInject] injects,
    between the two tags, [inject_transform] of every file of [specs]. *)
Inductive Action :=
| Noop
| TemplatesPreCache (files : list string) (bundleName : string)
| ImagesPreCache (files : list string) (bundleName : string)
| CopyAssets (src : list string) (base : string) (dest : string)
| StylesCompile (entry partials dest : string) (bundle : Bundle.t)
| CodeVerify (files : list string)
| CodeCompile (entry out : string) (minify : bool) (library : option bool)
    (globals : option (list (string * string)))
| CopyRootFiles (src : list string) (dest : string)
| SpecInject (src specs starttag endtag dest : string)
| KarmaStart (cfg : KarmaConfig).

(** Orchestrator's record of a task: [tasks[name] = {fn, dep, name}]. *)
Module Task.
Record t := mk {
  name : string;
  dep : list string;
  fn : Action
}.
End Task.

#[global] Instance KarmaFile_eq_dec : EqDecision KarmaFile.
Proof. solve_decision. Defined.
#[global] Instance KarmaConfig_eq_dec : EqDecision KarmaConfig.
Proof. solve_decision. Defined.
#[global] Instance RunConfig_eq_dec : EqDecision RunConfig.
Proof. solve_decision. Defined.
#[global] Instance Bundle_eq_dec : EqDecision Bundle.t.
Proof. solve_decision. Defined.
#[global] Instance Action_eq_dec : EqDecision Action.
Proof. solve_decision. Defined.
#[global] Instance Task_eq_dec : EqDecision Task.t.
Proof. solve_decision. Defined.

(** ** State and exceptions *)

(** [tasks] is the log of [gulp.task] calls, oldest first: Gulp keeps the
    last registration under a name ([lookup_task]). [styleTasks] is the
    module-level array of bundle.js. [devServers] logs the bundles handed to
    [run.generate]. *)
Record World := mkWorld {
  tasks : list Task.t;
  styleTasks : list string;
  devServers : list string
}.

Definition fresh : World := mkWorld [] [] [].

(** The only exception bundle.js can raise by itself: reading property
    [prop] of [undefined]. *)
Inductive Error :=
| TypeError (prop : string).

Inductive Outcome (A : Type) :=
| Return (a : A)
| Throw (e : Error).
Arguments Return {A} a.
Arguments Throw {A} e.

(** A computation changes the world and returns or throws; what it did to
    the world before throwing stays done. *)
Definition Gen (A : Type) : Type := World → Outcome A * World.

#[global] Instance Gen_ret : MRet Gen := λ A a w, (Return a, w).
#[global] Instance Gen_bind : MBind Gen := λ A B f m w,
  match m w with
  | (Return a, w') => f a w'
  | (Throw e, w') => (Throw e, w')
  end.

Definition throw {A : Type} (e : Error) : Gen A := λ w, (Throw e, w).

(** [gulp.task(name, dep, fn)]. *)
Definition gulp_task (name : string) (dep : list string) (fn : Action) : Gen unit :=
  λ w, (Return (), mkWorld (tasks w ++ [Task.mk name dep fn]) (styleTasks w) (devServers w)).

Definition styleTasks_read : Gen (list string) := λ w, (Return (styleTasks w), w).

(** [styleTasks.push(taskName)]. *)
Definition styleTasks_push (taskName : string) : Gen unit :=
  λ w, (Return (), mkWorld (tasks w) (styleTasks w ++ [taskName]) (devServers w)).

(** [run.generate(bundle, config)]: the dev-server collaborator; only the
    delegation is recorded. *)
Definition run_generate (bundle : Bundle.t) (config : Config.t) : Gen unit :=
  λ w, (Return (), mkWorld (tasks w) (styleTasks w) (devServers w ++ [Bundle.name bundle])).

(** [_.forEach(xs, f)] for a callback with effects. *)
Fixpoint forEach {A : Type} (xs : list A) (f : A → Gen unit) : Gen unit :=
  match xs with
  | [] => mret ()
  | x :: xs' => f x;; forEach xs' f
  end.

(** [_.forEach(xs, x => { acc = step(acc, x) })] for a callback that updates
    a local variable. *)
Fixpoint forEach_acc {A S : Type} (xs : list A) (acc : S) (step : S → A → Gen S) : Gen S :=
  match xs with
  | [] => mret acc
  | x :: xs' => acc' ← step acc x; forEach_acc xs' acc' step
  end.

(** The task registered under [name]: the last registration wins. *)
Fixpoint lookup_task (name : string) (ts : list Task.t) : option Task.t :=
  match ts with
  | [] => None
  | t :: ts' =>
      match lookup_task name ts' with
      | Some t' => Some t'
      | None => if decide (Task.name t = name) then Some t else None
      end
  end.

(** ** A concrete file system

    A project is a list of file paths. The matcher covers the wildcards that
    the patterns of bundle.js use: [*] for any run of characters inside one
    path segment, and a segment [**] for any number of directories. The
    special treatment that glob gives to names starting with a dot is left
    out; no path of the examples has one. *)

Fixpoint segments (s : string) : list string :=
  match s with
  | EmptyString => [EmptyString]
  | String c s' =>
      if bool_decide (c = "/"%char) then EmptyString :: segments s'
      else match segments s' with
           | x :: r => String c x :: r
           | [] => [String c EmptyString]
           end
  end.

Fixpoint segment_match (p s : string) : bool :=
  match p with
  | EmptyString => bool_decide (s = EmptyString)
  | String c p' =>
      if bool_decide (c = "*"%char) then
        (fix any (s : string) : bool :=
           segment_match p' s
           || match s with EmptyString => false | String _ s' => any s' end) s
      else match s with
           | EmptyString => false
           | String d s' => bool_decide (c = d) && segment_match p' s'
           end
  end.

Fixpoint segments_match (ps xs : list string) : bool :=
  match ps with
  | [] => bool_decide (xs = [])
  | p :: ps' =>
      if bool_decide (p = "**") then
        (fix dirs (xs : list string) : bool :=
           segments_match ps' xs
           || match xs with [] => false | _ :: xs' => dirs xs' end) xs
      else match xs with
           | [] => false
           | x :: xs' => segment_match p x && segments_match ps' xs'
           end
  end.

Definition glob_match (pattern path : string) : bool :=
  segments_match (segments pattern) (segments path).

Definition files_existsSync (project : list string) (path : string) : bool :=
  bool_decide (path ∈ project).

Definition files_glob_sync (project : list string) (pattern : string) (ignore : list string) : list string :=
  filter (λ f, glob_match pattern f = true ∧ Forall (λ i, glob_match i f = false) ignore) project.

(** ** An example project

    Three bundles, each depending on the previous one, a fourth that names
    a dependency that is not configured, and a fifth that names itself. *)

Definition ex_project : list string :=
  [ "base/index.ts"; "base/index.scss";
    "lib/index.ts"; "lib/index.scss"; "lib/util.ts";
    "src/index.ts"; "src/index.scss"; "src/spec.ts"; "src/home.spec.ts";
    "src/views/home.html"; "src/img/logo.svg"; "src/assets/icons/star.svg";
    "widget/index.scss" ].

Definition ex_base : Bundle.t :=
  Bundle.mk "base" "base" None None (Some true) None None None None None.

Definition ex_core : Bundle.t :=
  Bundle.mk "core" "lib" (Some ["base"]) None (Some true) None None None None None.

Definition ex_app : Bundle.t :=
  Bundle.mk "app" "src" (Some ["core"]) None (Some true) None None (Some ["assets"]) None None.

Definition ex_widget : Bundle.t :=
  Bundle.mk "widget" "widget" (Some ["ghost"]) None None None None None None None.

(** A bundle that names itself among its dependencies. *)
Definition ex_self : Bundle.t :=
  Bundle.mk "self" "src" (Some ["core"; "self"]) None None (Some false) None None None None.

Definition ex_config : Config.t :=
  Config.mk None None [ex_base; ex_core; ex_app; ex_widget; ex_self].

(** A bundle that opts out of the Angular pre-caches, on the root of [app]. *)
Definition ex_plain : Bundle.t :=
  Bundle.mk "plain" "src" None (Some false) None None (Some ["lint"]) None None None.

(** A second bundle with the name of [core], and a configuration that holds
    both. *)
Definition ex_shadow : Bundle.t :=
  Bundle.mk "core" "other" None None None None None None None None.

Definition ex_config_shadowed : Config.t :=
  Config.mk (Some false) None [ex_base; ex_core; ex_shadow].

(** A bundle whose root holds no file, and a bundle on the root of [app]
    that depends on [core], on it, and on a bundle that is not configured. *)
Definition ex_empty : Bundle.t :=
  Bundle.mk "empty" "empty" None None None None None None None None.

Definition ex_dependent : Bundle.t :=
  Bundle.mk "dependent" "src" (Some ["ghost"; "empty"; "core"]) None None None None None None
    None.

Definition ex_config_gaps : Config.t :=
  Config.mk None None [ex_base; ex_core; ex_empty; ex_dependent].

Definition ex_existsSync : string → bool := files_existsSync ex_project.

Definition ex_glob_sync : string → list string → list string := files_glob_sync ex_project.

(** ** bundle.js *)

(** The spec tasks with their matching browsers, in the order of the object
    literal, which is the order [_.forEach] visits its keys. *)
Definition specsTasks : list (string * list string) :=
  [ ("spec", ["PhantomJS"]);
    ("spec:chrome", ["Chrome"]);
    ("spec:ie", ["IE"]);
    ("spec:firefox", ["Firefox"]);
    ("spec:edge", ["Edge"]);
    ("spec:windows", ["Chrome"; "Firefox"; "IE"; "Edge"]);
    ("spec:linux", ["Chrome"; "Firefox"]) ].

Definition assetPaths (prefix postfix : string) (folders : option (list string)) : list string :=
  lodash_map folders (λ f, prefix +:+ f +:+ postfix).

(** [(r + '/').replace('//', '/')] *)
Definition slashed (r : string) : string := replace "//" "/" (r +:+ "/").

(** The four patterns that select the code of the bundle rooted at [root]. *)
Definition codeGlobs (root : string) : list string :=
  [ root +:+ "**/*.ts"; "!" +:+ root +:+ "spec.ts";
    "!" +:+ root +:+ "**/*.spec.ts"; "!" +:+ root +:+ "spec/**/*" ].

(** The inner function of [generate]; [dep.root] throws when [_.find] found
    no bundle. *)
Definition dependenciesCode (config : Config.t) (name : string) : Gen (list string) :=
  match lodash_find (Config.bundles config) (λ b, bool_decide (Bundle.name b = name)) with
  | None => throw (TypeError "root")
  | Some dep => let depRoot := slashed (Bundle.root dep) in mret (codeGlobs depRoot)
  end.

(** The karma task of one entry of [specsTasks]. *)
Definition karmaConfig (bundleName : string) (v : list string) (singleRun : option bool) : KarmaConfig :=
  mkKarmaConfig "karma.conf.js" v
    [ KPath (".tmp/" +:+ bundleName +:+ ".spec.js");
      KPattern (".tmp/" +:+ bundleName +:+ ".spec.js.map") false ]
    singleRun.

Section Generate.

(** [fs.existsSync] and [glob.sync(pattern, {ignore})]. *)
Variable existsSync : string → bool.
Variable glob_sync : string → list string → list string.

Definition nonempty {A : Type} (l : list A) : bool :=
  match l with [] => false | _ => true end.

Definition generate (bundle : Bundle.t) (config : Config.t) : Gen unit :=
  let name := Bundle.name bundle in
  let preBuildDeps :=
    default [] (Bundle.beforeBuild bundle)
      ++ lodash_map (Bundle.dependencies bundle) (λ d, d +:+ ":preBuild") in
  let buildDeps : list string := [] in
  let compileDeps : list string := [] in
  let root := slashed (Bundle.root bundle) in
  let minify := truthy (Config.minify config) || is_undefined (Config.minify config) in
  (* templates and images to pre-cache *)
  preBuildDeps ←
    (if truthy (Bundle.angular bundle) || is_undefined (Bundle.angular bundle) then
       let htmlFiles := glob_sync (root +:+ "**/*.html") [root +:+ "*.html"] in
       preBuildDeps ←
         (if nonempty htmlFiles then
            let taskName := name +:+ ":templates" in
            gulp_task taskName []
              (TemplatesPreCache [root +:+ "**/*.html"; "!" +:+ root +:+ "*.html"] name);;
            mret (preBuildDeps ++ [taskName])
          else mret preBuildDeps);
       let svgFiles :=
         glob_sync (root +:+ "**/*.svg") (assetPaths root "/**/*" (Bundle.assetFolders bundle)) in
       if nonempty svgFiles then
         let taskName := name +:+ ":images" in
         gulp_task taskName []
           (ImagesPreCache
              ([root +:+ "**/*.svg"]
                 ++ assetPaths root "/**/*/*.svg" (Bundle.assetFolders bundle)) name);;
         mret (preBuildDeps ++ [taskName])
       else mret preBuildDeps
     else mret preBuildDeps);
  let taskName := name +:+ ":assets" in
  gulp_task taskName []
    (CopyAssets (assetPaths root "/**/*" (Bundle.assetFolders bundle)) root ("dist/" +:+ name));;
  let buildDeps := buildDeps ++ [taskName] in
  (* SCSS entry point *)
  preBuildDeps ←
    (if existsSync (root +:+ "index.scss") then
       registered ← styleTasks_read;
       let deps :=
         lodash_intersection registered
           (lodash_map (Bundle.dependencies bundle) (λ d, d +:+ ":styles")) in
       let taskName := name +:+ ":styles" in
       gulp_task taskName deps
         (StylesCompile (root +:+ "index.scss") (root +:+ "**/_*.scss")
            ("dist/" +:+ name +:+ "/css/") bundle);;
       styleTasks_push taskName;;
       mret (preBuildDeps ++ [taskName])
     else mret preBuildDeps);
  (* TypeScript entry point *)
  buildDeps ←
    (if existsSync (root +:+ "index.ts") then
       let verifyName := name +:+ ":code:verify" in
       let files := codeGlobs root in
       files ← forEach_acc (default [] (Bundle.dependencies bundle)) files
                 (λ files d, code ← dependenciesCode config d; mret (files ++ code));
       gulp_task verifyName preBuildDeps (CodeVerify files);;
       let compileDeps := compileDeps ++ [verifyName] in
       let taskName := name +:+ ":code:compile" in
       gulp_task taskName compileDeps
         (CodeCompile (root +:+ "index.ts")
            ("dist/" +:+ name +:+ "/js/" +:+ name +:+ ".js")
            (if is_undefined (Bundle.minify bundle) then minify
             else truthy (Bundle.minify bundle))
            (Bundle.library bundle) (Bundle.globals bundle));;
       mret (buildDeps ++ [taskName])
     else mret buildDeps);
  gulp_task (name +:+ ":preBuild") preBuildDeps Noop;;
  gulp_task (name +:+ ":build-tasks") (preBuildDeps ++ buildDeps)
    (CopyRootFiles [root +:+ "*"; "!" +:+ root +:+ "*.ts"; "!" +:+ root +:+ "*.scss"]
       ("dist/" +:+ name));;
  gulp_task (name +:+ ":build") [name +:+ ":build-tasks"] Noop;;
  (* tests entry point *)
  (if existsSync (root +:+ "spec.ts") then
     let injectName := name +:+ ":spec:inject" in
     gulp_task injectName []
       (SpecInject (root +:+ "spec.ts") (root +:+ "/**/*.spec.ts")
          "/* inject:specs */" "/* endinject */" (".tmp/" +:+ name));;
     let verifyName := name +:+ ":spec:verify" in
     gulp_task verifyName [] (CodeVerify [root +:+ "/**/*.ts"]);;
     let compileName := name +:+ ":spec:compile" in
     gulp_task compileName ([verifyName; injectName] ++ preBuildDeps)
       (CodeCompile (".tmp/" +:+ name +:+ "/spec.ts")
          (".tmp/" +:+ name +:+ ".spec.js")
          (if is_undefined (Bundle.minify bundle) then minify
           else truthy (Bundle.minify bundle))
          (Some false) None);;
     forEach specsTasks (λ '(k, v),
       gulp_task (name +:+ ":" +:+ k) [compileName]
         (KarmaStart (karmaConfig name v None));;
       if bool_decide (indexOf k ":" > 0) then
         gulp_task (name +:+ ":" +:+ k +:+ ":debug") [compileName]
           (KarmaStart (karmaConfig name v (Some false)))
       else mret ())
   else mret ());;
  if negb (is_undefined (Bundle.run bundle)) then run_generate bundle config else mret ().

(** *** The registrations of one call, stage by stage

    The same registrations as functions of the probes and of the registry
    of style tasks at the time of the call; [generate_returns] and
    [generate_throws] prove that [generate] makes exactly these. *)

Definition angularOn (bundle : Bundle.t) : bool :=
  truthy (Bundle.angular bundle) || is_undefined (Bundle.angular bundle).

Definition hasTemplates (bundle : Bundle.t) : bool :=
  let root := slashed (Bundle.root bundle) in
  angularOn bundle && nonempty (glob_sync (root +:+ "**/*.html") [root +:+ "*.html"]).

Definition hasImages (bundle : Bundle.t) : bool :=
  let root := slashed (Bundle.root bundle) in
  angularOn bundle
  && nonempty (glob_sync (root +:+ "**/*.svg")
                 (assetPaths root "/**/*" (Bundle.assetFolders bundle))).

Definition hasStyleEntry (bundle : Bundle.t) : bool :=
  existsSync (slashed (Bundle.root bundle) +:+ "index.scss").

Definition hasCodeEntry (bundle : Bundle.t) : bool :=
  existsSync (slashed (Bundle.root bundle) +:+ "index.ts").

Definition hasSpecEntry (bundle : Bundle.t) : bool :=
  existsSync (slashed (Bundle.root bundle) +:+ "spec.ts").

Definition templatesStage (bundle : Bundle.t) : list Task.t :=
  let name := Bundle.name bundle in
  let root := slashed (Bundle.root bundle) in
  if hasTemplates bundle then
    [Task.mk (name +:+ ":templates") []
       (TemplatesPreCache [root +:+ "**/*.html"; "!" +:+ root +:+ "*.html"] name)]
  else [].

Definition imagesStage (bundle : Bundle.t) : list Task.t :=
  let name := Bundle.name bundle in
  let root := slashed (Bundle.root bundle) in
  if hasImages bundle then
    [Task.mk (name +:+ ":images") []
       (ImagesPreCache
          ([root +:+ "**/*.svg"]
             ++ assetPaths root "/**/*/*.svg" (Bundle.assetFolders bundle)) name)]
  else [].

Definition assetsTask (bundle : Bundle.t) : Task.t :=
  let name := Bundle.name bundle in
  let root := slashed (Bundle.root bundle) in
  Task.mk (name +:+ ":assets") []
    (CopyAssets (assetPaths root "/**/*" (Bundle.assetFolders bundle)) root ("dist/" +:+ name)).

Definition styleDeps (bundle : Bundle.t) (registry : list string) : list string :=
  lodash_intersection registry
    (lodash_map (Bundle.dependencies bundle) (λ d, d +:+ ":styles")).

Definition stylesStage (bundle : Bundle.t) (registry : list string) : list Task.t :=
  let name := Bundle.name bundle in
  let root := slashed (Bundle.root bundle) in
  if hasStyleEntry bundle then
    [Task.mk (name +:+ ":styles") (styleDeps bundle registry)
       (StylesCompile (root +:+ "index.scss") (root +:+ "**/_*.scss")
          ("dist/" +:+ name +:+ "/css/") bundle)]
  else [].

Definition preBuildDepsOf (bundle : Bundle.t) (registry : list string) : list string :=
  (default [] (Bundle.beforeBuild bundle)
     ++ lodash_map (Bundle.dependencies bundle) (λ d, d +:+ ":preBuild"))
    ++ map Task.name (templatesStage bundle)
    ++ map Task.name (imagesStage bundle)
    ++ map Task.name (stylesStage bundle registry).

(** The bundle that [_.find] returns for a dependency name. *)
Definition findBundle (config : Config.t) (d : string) : option Bundle.t :=
  lodash_find (Config.bundles config) (λ b, bool_decide (Bundle.name b = d)).

(** Every declared dependency names a bundle of the configuration. *)
Definition deps_known (config : Config.t) (bundle : Bundle.t) : bool :=
  forallb (λ d, negb (is_undefined (findBundle config d)))
    (default [] (Bundle.dependencies bundle)).

Definition depGlobs (config : Config.t) (d : string) : list string :=
  match findBundle config d with
  | Some dep => codeGlobs (slashed (Bundle.root dep))
  | None => []
  end.

Definition verifyFiles (config : Config.t) (bundle : Bundle.t) : list string :=
  codeGlobs (slashed (Bundle.root bundle))
    ++ flat_map (depGlobs config) (default [] (Bundle.dependencies bundle)).

Definition minifyFlag (config : Config.t) (bundle : Bundle.t) : bool :=
  if is_undefined (Bundle.minify bundle)
  then truthy (Config.minify config) || is_undefined (Config.minify config)
  else truthy (Bundle.minify bundle).

Definition codeStage (config : Config.t) (bundle : Bundle.t) (registry : list string) : list Task.t :=
  let name := Bundle.name bundle in
  let root := slashed (Bundle.root bundle) in
  if hasCodeEntry bundle then
    [ Task.mk (name +:+ ":code:verify") (preBuildDepsOf bundle registry)
        (CodeVerify (verifyFiles config bundle));
      Task.mk (name +:+ ":code:compile") [name +:+ ":code:verify"]
        (CodeCompile (root +:+ "index.ts")
           ("dist/" +:+ name +:+ "/js/" +:+ name +:+ ".js")
           (minifyFlag config bundle) (Bundle.library bundle) (Bundle.globals bundle)) ]
  else [].

Definition buildDepsOf (bundle : Bundle.t) : list string :=
  let name := Bundle.name bundle in
  [name +:+ ":assets"] ++ (if hasCodeEntry bundle then [name +:+ ":code:compile"] else []).

Definition buildStage (bundle : Bundle.t) (registry : list string) : list Task.t :=
  let name := Bundle.name bundle in
  let root := slashed (Bundle.root bundle) in
  [ Task.mk (name +:+ ":preBuild") (preBuildDepsOf bundle registry) Noop;
    Task.mk (name +:+ ":build-tasks") (preBuildDepsOf bundle registry ++ buildDepsOf bundle)
      (CopyRootFiles [root +:+ "*"; "!" +:+ root +:+ "*.ts"; "!" +:+ root +:+ "*.scss"]
         ("dist/" +:+ name));
    Task.mk (name +:+ ":build") [name +:+ ":build-tasks"] Noop ].

(** The two tasks that the loop over [specsTasks] may register for the
    entry [k: v]. *)
Definition karmaBase (name k : string) (v : list string) : Task.t :=
  Task.mk (name +:+ ":" +:+ k) [name +:+ ":spec:compile"]
    (KarmaStart (karmaConfig name v None)).

Definition karmaDebug (name k : string) (v : list string) : Task.t :=
  Task.mk (name +:+ ":" +:+ k +:+ ":debug") [name +:+ ":spec:compile"]
    (KarmaStart (karmaConfig name v (Some false))).

Definition karmaEntry (name : string) (entry : string * list string) : list Task.t :=
  let '(k, v) := entry in
  karmaBase name k v
  :: (if bool_decide (indexOf k ":" > 0) then [karmaDebug name k v] else []).

Definition karmaTasks (name : string) : list Task.t :=
  flat_map (karmaEntry name) specsTasks.

Definition specStage (config : Config.t) (bundle : Bundle.t) (registry : list string) : list Task.t :=
  let name := Bundle.name bundle in
  let root := slashed (Bundle.root bundle) in
  if hasSpecEntry bundle then
    [ Task.mk (name +:+ ":spec:inject") []
        (SpecInject (root +:+ "spec.ts") (root +:+ "/**/*.spec.ts")
           "/* inject:specs */" "/* endinject */" (".tmp/" +:+ name));
      Task.mk (name +:+ ":spec:verify") [] (CodeVerify [root +:+ "/**/*.ts"]);
      Task.mk (name +:+ ":spec:compile")
        ([name +:+ ":spec:verify"; name +:+ ":spec:inject"] ++ preBuildDepsOf bundle registry)
        (CodeCompile (".tmp/" +:+ name +:+ "/spec.ts")
           (".tmp/" +:+ name +:+ ".spec.js")
           (minifyFlag config bundle) (Some false) None) ]
      ++ karmaTasks name
  else [].

(** What is registered before the code stage, where [generate] may throw. *)
Definition earlyStages (bundle : Bundle.t) (registry : list string) : list Task.t :=
  templatesStage bundle ++ imagesStage bundle ++ [assetsTask bundle]
    ++ stylesStage bundle registry.

Definition generated (config : Config.t) (bundle : Bundle.t) (registry : list string) : list Task.t :=
  earlyStages bundle registry
    ++ codeStage config bundle registry
    ++ buildStage bundle registry
    ++ specStage config bundle registry.

(** The world a call leaves behind when it returns. *)
Definition worldAfter (config : Config.t) (bundle : Bundle.t) (w : World) : World :=
  mkWorld
    (tasks w ++ generated config bundle (styleTasks w))
    (styleTasks w ++ map Task.name (stylesStage bundle (styleTasks w)))
    (devServers w ++ (if is_undefined (Bundle.run bundle) then [] else [Bundle.name bundle])).

(** The world a call leaves behind when it throws. *)
Definition worldAtThrow (bundle : Bundle.t) (w : World) : World :=
  mkWorld
    (tasks w ++ earlyStages bundle (styleTasks w))
    (styleTasks w ++ map Task.name (stylesStage bundle (styleTasks w)))
    (devServers w).

(** Modelled from the spec: the driver (the entry point of the package,
    index.js, which is not part of lib/bundle.js) performs the generation
    "for each bundle, in the order bundles appear in GlobalConfig.bundles";
    an exception ends the run. *)
Definition generate_bundles (bs : list Bundle.t) (config : Config.t) : Gen unit :=
  forEach bs (λ b, generate b config).

(** *** Notions the properties are stated with *)

(** The rule of the specification for the minify flag: the key of the
    bundle if defined, else the key of the configuration if defined, else
    [true]. *)
Definition effectiveMinify (config : Config.t) (bundle : Bundle.t) : bool :=
  match Bundle.minify bundle with
  | Some m => m
  | None => match Config.minify config with Some g => g | None => true end
  end.

(** A test task: it starts karma and does not ask for the run to stay open. *)
Definition isTestTask (t : Task.t) : bool :=
  match Task.fn t with
  | KarmaStart cfg => negb (bool_decide (singleRun cfg = Some false))
  | _ => false
  end.

(** A debug variant: it starts karma with [singleRun: false]. *)
Definition isDebugTask (t : Task.t) : bool :=
  match Task.fn t with
  | KarmaStart cfg => bool_decide (singleRun cfg = Some false)
  | _ => false
  end.

(** The call throws: the bundle has a code entry point and a dependency
    that is no bundle of the configuration ([generate_outcome]). *)
Definition throws (config : Config.t) (bundle : Bundle.t) : bool :=
  hasCodeEntry bundle && negb (deps_known config bundle).

(** The tasks that a call registers, whether it returns or throws. *)
Definition registeredBy (config : Config.t) (bundle : Bundle.t) (registry : list string) : list Task.t :=
  if throws config bundle then earlyStages bundle registry
  else generated config bundle registry.

(** What follows the name of the bundle and a colon in the names of the
    tasks of the test matrix. *)
Definition karmaSuffixes : list string :=
  flat_map (λ entry : string * list string,
              fst entry :: (if bool_decide (indexOf (fst entry) ":" > 0)
                            then [fst entry +:+ ":debug"] else []))
    specsTasks.

(** The same for the stages before the code stage and from it on. *)
Definition earlySuffixes (bundle : Bundle.t) : list string :=
  (if hasTemplates bundle then ["templates"] else [])
    ++ (if hasImages bundle then ["images"] else [])
    ++ ["assets"]
    ++ (if hasStyleEntry bundle then ["styles"] else []).

Definition lateSuffixes (bundle : Bundle.t) : list string :=
  (if hasCodeEntry bundle then ["code:verify"; "code:compile"] else [])
    ++ ["preBuild"; "build-tasks"; "build"]
    ++ (if hasSpecEntry bundle
        then ["spec:inject"; "spec:verify"; "spec:compile"] ++ karmaSuffixes else []).

(** A task seen as a node of the graph: its name and its prerequisites. *)
Definition edges (t : Task.t) : string * list string := (Task.name t, Task.dep t).

(** A pattern of a file list is an exclusion when it starts with [!]. *)
Definition isNegated (pattern : string) : bool := String.prefix "!" pattern.

(** * Properties *)

(** ** Strings and task lookup *)

Lemma append_inj_l (n a b : string) : n +:+ a = n +:+ b → a = b.
Proof.
  induction n as [|c n IH]; intros H; [exact H|].
  change (String c (n +:+ a) = String c (n +:+ b)) in H.
  injection H as H. auto.
Qed.

Lemma append_length (a b : string) :
  String.length (a +:+ b) = (String.length a + String.length b)%nat.
Proof.
  induction a as [|c a IH]; [reflexivity|].
  change (S (String.length (a +:+ b)) = S (String.length a + String.length b)).
  by rewrite IH.
Qed.

Lemma append_inj_r (a b s : string) : a +:+ s = b +:+ s → a = b.
Proof.
  revert b. induction a as [|c a IH]; intros [|d b] H.
  - reflexivity.
  - apply (f_equal String.length) in H. rewrite !append_length in H.
    simpl in H. lia.
  - apply (f_equal String.length) in H. rewrite !append_length in H.
    simpl in H. lia.
  - change (String c (a +:+ s) = String d (b +:+ s)) in H.
    injection H as -> H. f_equal. auto.
Qed.

Lemma lookup_task_app (n : string) (l1 l2 : list Task.t) :
  lookup_task n (l1 ++ l2)
  = match lookup_task n l2 with
    | Some t => Some t
    | None => lookup_task n l1
    end.
Proof.
  induction l1 as [|t l1 IH]; simpl.
  - by destruct (lookup_task n l2).
  - rewrite IH. by destruct (lookup_task n l2).
Qed.

Lemma lookup_task_absent (n : string) (l : list Task.t) :
  n ∉ map Task.name l → lookup_task n l = None.
Proof.
  induction l as [|t l IH]; simpl; [done|].
  intros H. apply not_elem_of_cons in H as [Hne Hl].
  rewrite (IH Hl). by rewrite decide_False.
Qed.

(** ** What one call does *)

Lemma dependencies_resolved (config : Config.t) (deps files : list string) (w : World) :
  forallb (λ d, negb (is_undefined (findBundle config d))) deps = true →
  forEach_acc deps files
    (λ files d, code ← dependenciesCode config d; mret (files ++ code)) w
  = (Return (files ++ flat_map (depGlobs config) deps), w).
Proof.
  revert files. induction deps as [|d deps IH]; intros files H; simpl.
  - by rewrite app_nil_r.
  - simpl in H. apply andb_true_iff in H as [Hd Hdeps].
    unfold mbind, Gen_bind, dependenciesCode, depGlobs, findBundle in *.
    destruct (lodash_find _ _) as [dep|]; [|done].
    simpl. rewrite (IH _ Hdeps). by rewrite <- app_assoc.
Qed.

Lemma dependencies_unresolved (config : Config.t) (deps files : list string) (w : World) :
  forallb (λ d, negb (is_undefined (findBundle config d))) deps = false →
  forEach_acc deps files
    (λ files d, code ← dependenciesCode config d; mret (files ++ code)) w
  = (Throw (TypeError "root"), w).
Proof.
  revert files. induction deps as [|d deps IH]; intros files H; simpl in *; [done|].
  unfold mbind, Gen_bind, dependenciesCode, findBundle in *.
  destruct (lodash_find _ _) as [dep|]; simpl in *; [|done].
  by rewrite (IH _ H).
Qed.

Lemma karma_registered (name : string) (w : World) :
  forEach specsTasks (λ '(k, v),
    gulp_task (name +:+ ":" +:+ k) [name +:+ ":spec:compile"]
      (KarmaStart (karmaConfig name v None));;
    if bool_decide (indexOf k ":" > 0) then
      gulp_task (name +:+ ":" +:+ k +:+ ":debug") [name +:+ ":spec:compile"]
        (KarmaStart (karmaConfig name v (Some false)))
    else mret ()) w
  = (Return (), mkWorld (tasks w ++ karmaTasks name) (styleTasks w) (devServers w)).
Proof.
  unfold specsTasks, karmaTasks, forEach, flat_map, karmaEntry, karmaBase, karmaDebug, mbind, Gen_bind, gulp_task, mret, Gen_ret.
  simpl. rewrite <- !app_assoc. reflexivity.
Qed.

Lemma bind_step {A B : Type} (m : Gen A) (f : A → Gen B) (w w' : World) (a : A) :
  m w = (Return a, w') → (m ≫= f) w = f a w'.
Proof. intros H. unfold mbind, Gen_bind. by rewrite H. Qed.

Lemma bind_throws {A B : Type} (m : Gen A) (f : A → Gen B) (w w' : World) (e : Error) :
  m w = (Throw e, w') → (m ≫= f) w = (Throw e, w').
Proof. intros H. unfold mbind, Gen_bind. by rewrite H. Qed.

(** Run the next statement of a computation, given what it does. *)
Ltac step_with H := rewrite (bind_step _ _ _ _ _ H); clear H.
Ltac step_task := erewrite bind_step by (unfold gulp_task; reflexivity).

Lemma generate_returns (bundle : Bundle.t) (config : Config.t) (w : World) :
  hasCodeEntry bundle = false ∨ deps_known config bundle = true →
  generate bundle config w = (Return (), worldAfter config bundle w).
Proof.
  intros Hok. destruct w as [ts registry dev]. unfold generate. cbv zeta.
  set (pre0 := default [] (Bundle.beforeBuild bundle) ++ _).
  (* templates and images *)
  match goal with |- (?m ≫= _) ?w0 = _ =>
    assert (m w0 = (Return (pre0 ++ map Task.name (templatesStage bundle)
                             ++ map Task.name (imagesStage bundle)),
                   mkWorld (ts ++ templatesStage bundle ++ imagesStage bundle)
                     registry dev)) as H
  end.
  { unfold templatesStage, imagesStage, hasTemplates, hasImages, angularOn.
    unfold mbind, Gen_bind, mret, Gen_ret, gulp_task.
    destruct (truthy (Bundle.angular bundle) || _), (nonempty (glob_sync _ [_])),
      (nonempty (glob_sync _ (assetPaths _ _ _)));
      cbn [andb map app tasks styleTasks devServers Task.name];
      rewrite <- ?app_assoc, ?app_nil_r; cbn [app]; reflexivity. }
  step_with H.
  (* assets *)
  step_task. cbn [tasks styleTasks devServers].
  (* styles *)
  match goal with |- (?m ≫= _) ?w1 = _ =>
    assert (m w1 = (Return (preBuildDepsOf bundle registry),
                    mkWorld (ts ++ earlyStages bundle registry)
                      (registry ++ map Task.name (stylesStage bundle registry))
                      dev)) as H
  end.
  { unfold preBuildDepsOf, earlyStages, stylesStage, hasStyleEntry, styleDeps, assetsTask.
    fold pre0.
    unfold mbind, Gen_bind, mret, Gen_ret, gulp_task, styleTasks_read, styleTasks_push.
    destruct (existsSync _);
      cbn [map app tasks styleTasks devServers Task.name];
      rewrite <- ?app_assoc, ?app_nil_r; cbn [app]; reflexivity. }
  step_with H.
  (* code *)
  match goal with |- (?m ≫= _) ?w1 = _ =>
    assert (m w1 = (Return (buildDepsOf bundle),
                    mkWorld (ts ++ earlyStages bundle registry
                               ++ codeStage config bundle registry)
                      (registry ++ map Task.name (stylesStage bundle registry))
                      dev)) as H
  end.
  { unfold buildDepsOf, codeStage, verifyFiles, minifyFlag, hasCodeEntry, deps_known in *.
    destruct (existsSync _).
    - destruct Hok as [Hok|Hok]; [discriminate|].
      rewrite (bind_step _ _ _ _ _ (dependencies_resolved _ _ _ _ Hok)).
      unfold mbind, Gen_bind, mret, Gen_ret, gulp_task.
      cbn [map app tasks styleTasks devServers Task.name].
      rewrite <- ?app_assoc. reflexivity.
    - unfold mret, Gen_ret. rewrite ?app_nil_r. reflexivity. }
  step_with H.
  (* preBuild, build-tasks, build *)
  do 3 (step_task; cbn [tasks styleTasks devServers]).
  (* specs *)
  match goal with |- (?m ≫= _) ?w1 = _ =>
    assert (m w1 = (Return (),
                    mkWorld (ts ++ generated config bundle registry)
                      (registry ++ map Task.name (stylesStage bundle registry))
                      dev)) as H
  end.
  { unfold generated, specStage, buildStage, hasSpecEntry.
    destruct (existsSync _).
    - do 3 (step_task; cbn [tasks styleTasks devServers]).
      rewrite karma_registered. cbn [tasks styleTasks devServers].
      rewrite <- ?app_assoc. reflexivity.
    - unfold mret, Gen_ret. rewrite <- ?app_assoc, ?app_nil_r. reflexivity. }
  step_with H.
  (* run *)
  unfold worldAfter, run_generate, mret, Gen_ret.
  destruct (Bundle.run bundle); cbn [is_undefined negb tasks styleTasks devServers];
    rewrite ?app_nil_r; reflexivity.
Qed.

Lemma generate_throws (bundle : Bundle.t) (config : Config.t) (w : World) :
  hasCodeEntry bundle = true →
  deps_known config bundle = false →
  generate bundle config w = (Throw (TypeError "root"), worldAtThrow bundle w).
Proof.
  intros Hcode Hdeps. destruct w as [ts registry dev]. unfold generate. cbv zeta.
  set (pre0 := default [] (Bundle.beforeBuild bundle) ++ _).
  match goal with |- (?m ≫= _) ?w0 = _ =>
    assert (m w0 = (Return (pre0 ++ map Task.name (templatesStage bundle)
                             ++ map Task.name (imagesStage bundle)),
                   mkWorld (ts ++ templatesStage bundle ++ imagesStage bundle)
                     registry dev)) as H
  end.
  { unfold templatesStage, imagesStage, hasTemplates, hasImages, angularOn.
    unfold mbind, Gen_bind, mret, Gen_ret, gulp_task.
    destruct (truthy (Bundle.angular bundle) || _), (nonempty (glob_sync _ [_])),
      (nonempty (glob_sync _ (assetPaths _ _ _)));
      cbn [andb map app tasks styleTasks devServers Task.name];
      rewrite <- ?app_assoc, ?app_nil_r; cbn [app]; reflexivity. }
  step_with H.
  step_task. cbn [tasks styleTasks devServers].
  match goal with |- (?m ≫= _) ?w1 = _ =>
    assert (m w1 = (Return (preBuildDepsOf bundle registry),
                    mkWorld (ts ++ earlyStages bundle registry)
                      (registry ++ map Task.name (stylesStage bundle registry))
                      dev)) as H
  end.
  { unfold preBuildDepsOf, earlyStages, stylesStage, hasStyleEntry, styleDeps, assetsTask.
    fold pre0.
    unfold mbind, Gen_bind, mret, Gen_ret, gulp_task, styleTasks_read, styleTasks_push.
    destruct (existsSync _);
      cbn [map app tasks styleTasks devServers Task.name];
      rewrite <- ?app_assoc, ?app_nil_r; cbn [app]; reflexivity. }
  step_with H.
  apply bind_throws. unfold hasCodeEntry, deps_known in *. rewrite Hcode.
  apply bind_throws. by apply dependencies_unresolved.
Qed.

(** A call throws exactly when the bundle has a code entry point and one of
    its dependencies is not a bundle of the configuration. *)
Lemma generate_outcome (bundle : Bundle.t) (config : Config.t) (w : World) :
  generate bundle config w
  = if hasCodeEntry bundle && negb (deps_known config bundle)
    then (Throw (TypeError "root"), worldAtThrow bundle w)
    else (Return (), worldAfter config bundle w).
Proof.
  destruct (hasCodeEntry bundle) eqn:Hcode, (deps_known config bundle) eqn:Hdeps; simpl.
  - apply generate_returns. by right.
  - by apply generate_throws.
  - apply generate_returns. by left.
  - apply generate_returns. by left.
Qed.

(** ** Looking up the tasks of a call *)

Lemma karmaTasks_eq (name : string) :
  karmaTasks name
  = [ karmaBase name "spec" ["PhantomJS"];
      karmaBase name "spec:chrome" ["Chrome"];
      karmaDebug name "spec:chrome" ["Chrome"];
      karmaBase name "spec:ie" ["IE"];
      karmaDebug name "spec:ie" ["IE"];
      karmaBase name "spec:firefox" ["Firefox"];
      karmaDebug name "spec:firefox" ["Firefox"];
      karmaBase name "spec:edge" ["Edge"];
      karmaDebug name "spec:edge" ["Edge"];
      karmaBase name "spec:windows" ["Chrome"; "Firefox"; "IE"; "Edge"];
      karmaDebug name "spec:windows" ["Chrome"; "Firefox"; "IE"; "Edge"];
      karmaBase name "spec:linux" ["Chrome"; "Firefox"];
      karmaDebug name "spec:linux" ["Chrome"; "Firefox"] ].
Proof. reflexivity. Qed.

(** Two task names of one bundle with different suffixes are different. *)
Ltac name_neq :=
  let H := fresh in
  intros H; apply append_inj_l in H; vm_compute in H; discriminate H.

(** No task of an explicit list has the name looked up. *)
Ltac solve_absent :=
  apply lookup_task_absent;
  cbn [map Task.name app karmaBase karmaDebug];
  repeat (apply not_elem_of_cons; split; [name_neq|]);
  apply not_elem_of_nil.

(** Evaluate [lookup_task] on an explicit list of tasks of one bundle. *)
Ltac eval_lookup :=
  cbn [lookup_task Task.name karmaBase karmaDebug app];
  repeat first [ rewrite decide_True by reflexivity
               | rewrite decide_False by name_neq ].

Lemma specStage_absent (config : Config.t) (bundle : Bundle.t) (registry : list string)
    (s : string) :
  s ∈ [":styles"; ":code:verify"; ":code:compile"; ":preBuild"] →
  lookup_task (Bundle.name bundle +:+ s) (specStage config bundle registry) = None.
Proof.
  intros Hs. unfold specStage. destruct (hasSpecEntry bundle); [|done].
  rewrite karmaTasks_eq.
  repeat (apply elem_of_cons in Hs as [-> |Hs]); [solve_absent..|].
  by apply elem_of_nil in Hs.
Qed.

Lemma buildStage_absent (bundle : Bundle.t) (registry : list string) (s : string) :
  s ∈ [":styles"; ":code:verify"; ":code:compile"] →
  lookup_task (Bundle.name bundle +:+ s) (buildStage bundle registry) = None.
Proof.
  intros Hs. unfold buildStage.
  repeat (apply elem_of_cons in Hs as [-> |Hs]); [solve_absent..|].
  by apply elem_of_nil in Hs.
Qed.

Lemma codeStage_absent (config : Config.t) (bundle : Bundle.t) (registry : list string) :
  lookup_task (Bundle.name bundle +:+ ":styles") (codeStage config bundle registry) = None.
Proof. unfold codeStage. destruct (hasCodeEntry bundle); [solve_absent|done]. Qed.

Lemma lookup_preBuild (config : Config.t) (bundle : Bundle.t) (registry : list string) :
  lookup_task (Bundle.name bundle +:+ ":preBuild") (generated config bundle registry)
  = Some (Task.mk (Bundle.name bundle +:+ ":preBuild")
            (preBuildDepsOf bundle registry) Noop).
Proof.
  unfold generated. rewrite !lookup_task_app.
  rewrite specStage_absent by compute_done.
  unfold buildStage. by eval_lookup.
Qed.

Lemma lookup_styles (config : Config.t) (bundle : Bundle.t) (registry : list string) :
  hasStyleEntry bundle = true →
  lookup_task (Bundle.name bundle +:+ ":styles") (generated config bundle registry)
  = Some (Task.mk (Bundle.name bundle +:+ ":styles") (styleDeps bundle registry)
            (StylesCompile (slashed (Bundle.root bundle) +:+ "index.scss")
               (slashed (Bundle.root bundle) +:+ "**/_*.scss")
               ("dist/" +:+ Bundle.name bundle +:+ "/css/") bundle)).
Proof.
  intros Hscss. unfold generated, earlyStages. rewrite !lookup_task_app.
  rewrite specStage_absent, buildStage_absent, codeStage_absent by compute_done.
  unfold stylesStage. rewrite Hscss. by eval_lookup.
Qed.

Lemma lookup_code_verify (config : Config.t) (bundle : Bundle.t) (registry : list string) :
  hasCodeEntry bundle = true →
  lookup_task (Bundle.name bundle +:+ ":code:verify") (generated config bundle registry)
  = Some (Task.mk (Bundle.name bundle +:+ ":code:verify")
            (preBuildDepsOf bundle registry) (CodeVerify (verifyFiles config bundle))).
Proof.
  intros Hts. unfold generated. rewrite !lookup_task_app.
  rewrite specStage_absent, buildStage_absent by compute_done.
  unfold codeStage. rewrite Hts. by eval_lookup.
Qed.

Lemma lookup_code_compile (config : Config.t) (bundle : Bundle.t) (registry : list string) :
  hasCodeEntry bundle = true →
  lookup_task (Bundle.name bundle +:+ ":code:compile") (generated config bundle registry)
  = Some (Task.mk (Bundle.name bundle +:+ ":code:compile")
            [Bundle.name bundle +:+ ":code:verify"]
            (CodeCompile (slashed (Bundle.root bundle) +:+ "index.ts")
               ("dist/" +:+ Bundle.name bundle +:+ "/js/" +:+ Bundle.name bundle +:+ ".js")
               (minifyFlag config bundle) (Bundle.library bundle)
               (Bundle.globals bundle))).
Proof.
  intros Hts. unfold generated. rewrite !lookup_task_app.
  rewrite specStage_absent, buildStage_absent by compute_done.
  unfold codeStage. rewrite Hts. by eval_lookup.
Qed.

Lemma lookup_spec_compile (config : Config.t) (bundle : Bundle.t) (registry : list string) :
  hasSpecEntry bundle = true →
  lookup_task (Bundle.name bundle +:+ ":spec:compile") (generated config bundle registry)
  = Some (Task.mk (Bundle.name bundle +:+ ":spec:compile")
            ([Bundle.name bundle +:+ ":spec:verify"; Bundle.name bundle +:+ ":spec:inject"]
               ++ preBuildDepsOf bundle registry)
            (CodeCompile (".tmp/" +:+ Bundle.name bundle +:+ "/spec.ts")
               (".tmp/" +:+ Bundle.name bundle +:+ ".spec.js")
               (minifyFlag config bundle) (Some false) None)).
Proof.
  intros Hspec. unfold generated. rewrite !lookup_task_app.
  unfold specStage. rewrite Hspec, karmaTasks_eq. by eval_lookup.
Qed.

Lemma lookup_karma_base (config : Config.t) (bundle : Bundle.t) (registry : list string)
    (k : string) (v : list string) :
  hasSpecEntry bundle = true →
  (k, v) ∈ specsTasks →
  lookup_task (Bundle.name bundle +:+ ":" +:+ k) (generated config bundle registry)
  = Some (karmaBase (Bundle.name bundle) k v).
Proof.
  intros Hspec Hk. unfold generated. rewrite !lookup_task_app.
  unfold specStage. rewrite Hspec, karmaTasks_eq.
  unfold specsTasks in Hk.
  repeat (apply elem_of_cons in Hk as [[= -> ->]|Hk]); [by eval_lookup..|].
  by apply elem_of_nil in Hk.
Qed.

(** ** [_.intersection] *)

Lemma intersection_from_elem (acc xs ys : list string) (x : string) :
  x ∈ intersection_from acc xs ys ↔ x ∈ acc ∨ (x ∈ xs ∧ x ∈ ys).
Proof.
  revert acc. induction xs as [|y xs IH]; intros acc; simpl.
  - rewrite elem_of_nil. tauto.
  - destruct (decide (y ∈ acc)); [|destruct (decide (y ∈ ys))];
      rewrite IH; rewrite ?elem_of_app, ?elem_of_cons, ?elem_of_nil.
    + split; [tauto|]. intros [?|[[Hxy|?] ?]]; try subst x; tauto.
    + split; [|tauto]. intros [[?|[Hxy|[]]]|[? ?]]; try subst x; tauto.
    + split; [tauto|]. intros [?|[[Hxy|?] ?]]; try subst x; tauto.
Qed.

Lemma intersection_from_NoDup (acc xs ys : list string) :
  NoDup acc → NoDup (intersection_from acc xs ys).
Proof.
  revert acc. induction xs as [|y xs IH]; intros acc Hacc; simpl; [done|].
  destruct (decide (y ∈ acc)); [auto|]. destruct (decide (y ∈ ys)); [|auto].
  apply IH, NoDup_app. split_and!; [done| |apply NoDup_singleton].
  intros x Hx ->%list_elem_of_singleton. done.
Qed.

Lemma intersection_from_sublist (acc xs ys : list string) :
  ∃ r, intersection_from acc xs ys = acc ++ r ∧ r `sublist_of` xs.
Proof.
  revert acc. induction xs as [|y xs IH]; intros acc; simpl.
  - exists []. by rewrite app_nil_r.
  - destruct (decide (y ∈ acc)); [|destruct (decide (y ∈ ys))].
    + destruct (IH acc) as (r & -> & Hr). exists r. split; [done|]. by constructor.
    + destruct (IH (acc ++ [y])) as (r & -> & Hr). exists (y :: r).
      rewrite <- app_assoc. split; [done|]. by constructor.
    + destruct (IH acc) as (r & -> & Hr). exists r. split; [done|]. by constructor.
Qed.

Lemma lodash_intersection_elem (xs ys : list string) (x : string) :
  x ∈ lodash_intersection xs ys ↔ x ∈ xs ∧ x ∈ ys.
Proof.
  unfold lodash_intersection. rewrite intersection_from_elem.
  split; [|tauto]. intros [H|?]; [|done]. by apply elem_of_nil in H.
Qed.

Lemma lodash_intersection_NoDup (xs ys : list string) : NoDup (lodash_intersection xs ys).
Proof. apply intersection_from_NoDup, NoDup_nil_2. Qed.

Lemma lodash_intersection_sublist (xs ys : list string) :
  lodash_intersection xs ys `sublist_of` xs.
Proof.
  unfold lodash_intersection. by destruct (intersection_from_sublist [] xs ys) as (r & -> & Hr).
Qed.

(** ** The registry of style tasks over a run *)

Lemma stylesStage_names (bundle : Bundle.t) (registry : list string) :
  map Task.name (stylesStage bundle registry)
  = if hasStyleEntry bundle then [Bundle.name bundle +:+ ":styles"] else [].
Proof. unfold stylesStage. by destruct (hasStyleEntry bundle). Qed.

Lemma generate_bundles_cons (b : Bundle.t) (bs : list Bundle.t) (config : Config.t) (w : World) :
  generate_bundles (b :: bs) config w
  = if hasCodeEntry b && negb (deps_known config b)
    then (Throw (TypeError "root"), worldAtThrow b w)
    else generate_bundles bs config (worldAfter config b w).
Proof.
  unfold generate_bundles. simpl. unfold mbind, Gen_bind.
  rewrite generate_outcome. by destruct (_ && _).
Qed.

(** After a run that returned, the registry holds the style task of every
    bundle of the run that has a style entry point. *)
Lemma registry_complete (bs : list Bundle.t) (config : Config.t) (w0 w : World) :
  generate_bundles bs config w0 = (Return (), w) →
  (∀ x, x ∈ styleTasks w0 → x ∈ styleTasks w)
  ∧ (∀ a, a ∈ bs → hasStyleEntry a = true →
          (Bundle.name a +:+ ":styles") ∈ styleTasks w).
Proof.
  revert w0. induction bs as [|b bs IH]; intros w0 Hrun.
  - injection Hrun as <-. split; [done|]. intros a Ha. by apply elem_of_nil in Ha.
  - rewrite generate_bundles_cons in Hrun.
    destruct (_ && _); [done|]. destruct (IH _ Hrun) as [Hmono Hall].
    assert (∀ x, x ∈ styleTasks (worldAfter config b w0) → x ∈ styleTasks w) as Hmono'
      by done.
    cbn [worldAfter styleTasks] in Hmono'. rewrite stylesStage_names in Hmono'.
    split.
    + intros x Hx. apply Hmono', elem_of_app. by left.
    + intros a [-> |Ha]%elem_of_cons Hscss; [|by apply Hall].
      apply Hmono', elem_of_app. right. rewrite Hscss. by left.
Qed.

(** Whatever a run did, the registry holds nothing but what it held before
    and the style tasks of the bundles of the run that have a style entry
    point. *)
Lemma registry_sound (bs : list Bundle.t) (config : Config.t) (w0 : World) (x : string) :
  x ∈ styleTasks (generate_bundles bs config w0).2 →
  x ∈ styleTasks w0
  ∨ ∃ p, p ∈ bs ∧ hasStyleEntry p = true ∧ x = Bundle.name p +:+ ":styles".
Proof.
  revert w0. induction bs as [|b bs IH]; intros w0; [by left|].
  rewrite generate_bundles_cons.
  assert (x ∈ styleTasks w0 ++ map Task.name (stylesStage b (styleTasks w0)) →
          x ∈ styleTasks w0
          ∨ ∃ p, p ∈ b :: bs ∧ hasStyleEntry p = true ∧ x = Bundle.name p +:+ ":styles")
    as Hb.
  { rewrite stylesStage_names. intros [?|Hx]%elem_of_app; [by left|].
    destruct (hasStyleEntry b) eqn:Hscss; [|by apply elem_of_nil in Hx].
    apply list_elem_of_singleton in Hx. right. exists b. split_and!; [by left|done|done]. }
  destruct (_ && _); [exact Hb|].
  intros [Hx|(p & Hp & Hscss & ->)]%IH; [by apply Hb|].
  right. exists p. split_and!; [by right|done|done].
Qed.

Lemma lookup_after (config : Config.t) (bundle : Bundle.t) (w : World) (n : string) (t : Task.t) :
  lookup_task n (generated config bundle (styleTasks w)) = Some t →
  lookup_task n (tasks (worldAfter config bundle w)) = Some t.
Proof. intros H. cbn [worldAfter tasks]. by rewrite lookup_task_app, H. Qed.

(** The style task of a call is registered before the call can throw. *)
Lemma lookup_styles_any (config : Config.t) (bundle : Bundle.t) (w : World) :
  hasStyleEntry bundle = true →
  ∃ o w',
    generate bundle config w = (o, w')
    ∧ (deps_known config bundle = true → o = Return ())
    ∧ styleTasks w' = styleTasks w ++ [Bundle.name bundle +:+ ":styles"]
    ∧ lookup_task (Bundle.name bundle +:+ ":styles") (tasks w')
      = Some (Task.mk (Bundle.name bundle +:+ ":styles") (styleDeps bundle (styleTasks w))
                (StylesCompile (slashed (Bundle.root bundle) +:+ "index.scss")
                   (slashed (Bundle.root bundle) +:+ "**/_*.scss")
                   ("dist/" +:+ Bundle.name bundle +:+ "/css/") bundle)).
Proof.
  intros Hscss. rewrite generate_outcome.
  destruct (deps_known config bundle) eqn:Hdeps, (hasCodeEntry bundle) eqn:Hts;
    cbn [andb negb]; eexists _, _; (split_and!; [done|done| |]);
    try (cbn [worldAfter worldAtThrow styleTasks]; by rewrite stylesStage_names, Hscss);
    try (by apply lookup_after, lookup_styles).
  cbn [worldAtThrow tasks]. unfold earlyStages. rewrite !lookup_task_app.
  unfold stylesStage. rewrite Hscss. by eval_lookup.
Qed.

Lemma minifyFlag_effective (config : Config.t) (bundle : Bundle.t) :
  minifyFlag config bundle = effectiveMinify config bundle.
Proof.
  unfold minifyFlag, effectiveMinify.
  by destruct (Bundle.minify bundle) as [[]|], (Config.minify config) as [[]|].
Qed.

Lemma deps_known_find (config : Config.t) (bundle : Bundle.t) (d : string) :
  deps_known config bundle = true →
  d ∈ default [] (Bundle.dependencies bundle) →
  ∃ dep, findBundle config d = Some dep.
Proof.
  unfold deps_known. rewrite forallb_forall. intros H Hd.
  specialize (H d). rewrite <- list_elem_of_In in H. specialize (H Hd).
  destruct (findBundle config d) as [dep|]; [by exists dep|done].
Qed.

Lemma deps_unknown (config : Config.t) (bundle : Bundle.t) (d : string) :
  d ∈ default [] (Bundle.dependencies bundle) →
  findBundle config d = None →
  deps_known config bundle = false.
Proof.
  intros Hd Hnone. destruct (deps_known config bundle) eqn:Hk; [|done].
  destruct (deps_known_find _ _ _ Hk Hd) as [dep Hdep]. congruence.
Qed.

(** ** The claims *)

(** C3. For a bundle whose dependencies are all configured, the call
    returns, and the minify flag handed to [code.compile] by the task
    [name:code:compile] (when the bundle has index.ts) and by the task
    [name:spec:compile] (when it has spec.ts) is the effective minify flag:
    the key of the bundle if defined, else the key of the configuration if
    defined, else [true]. *)
Theorem C3_minify_flag (bundle : Bundle.t) (config : Config.t) (w : World) :
  deps_known config bundle = true →
  ∃ w', generate bundle config w = (Return (), w')
    ∧ (hasCodeEntry bundle = true →
       ∃ t entry out library globals,
         lookup_task (Bundle.name bundle +:+ ":code:compile") (tasks w') = Some t
         ∧ Task.fn t = CodeCompile entry out (effectiveMinify config bundle) library globals)
    ∧ (hasSpecEntry bundle = true →
       ∃ t entry out library globals,
         lookup_task (Bundle.name bundle +:+ ":spec:compile") (tasks w') = Some t
         ∧ Task.fn t = CodeCompile entry out (effectiveMinify config bundle) library globals).
Proof.
  intros Hdeps. exists (worldAfter config bundle w). split_and!.
  - apply generate_returns. by right.
  - intros Hts. eexists _, _, _, _, _. split.
    + apply lookup_after, lookup_code_compile, Hts.
    + cbn [Task.fn]. by rewrite minifyFlag_effective.
  - intros Hspec. eexists _, _, _, _, _. split.
    + apply lookup_after, lookup_spec_compile, Hspec.
    + cbn [Task.fn]. by rewrite minifyFlag_effective.
Qed.

(** C4. For a bundle with index.ts whose dependencies are all configured,
    the call returns and the file list of [name:code:verify] is the four
    code patterns of the bundle's own root followed, for each declared
    dependency in turn, by the four code patterns of the root of the bundle
    that the dependency names. Every pattern of the list therefore belongs to
    the bundle itself or to a direct dependency, and there are four patterns
    per root: nothing is added for the dependencies of a dependency. *)
Theorem C4_verify_files (bundle : Bundle.t) (config : Config.t) (w : World) :
  deps_known config bundle = true →
  hasCodeEntry bundle = true →
  let deps := default [] (Bundle.dependencies bundle) in
  ∃ w' t files,
    generate bundle config w = (Return (), w')
    ∧ lookup_task (Bundle.name bundle +:+ ":code:verify") (tasks w') = Some t
    ∧ Task.fn t = CodeVerify files
    ∧ files = codeGlobs (slashed (Bundle.root bundle))
              ++ flat_map (λ d, match findBundle config d with
                                | Some dep => codeGlobs (slashed (Bundle.root dep))
                                | None => []
                                end) deps
    ∧ (∀ p, p ∈ files →
         p ∈ codeGlobs (slashed (Bundle.root bundle))
         ∨ ∃ d dep, d ∈ deps ∧ findBundle config d = Some dep
                    ∧ p ∈ codeGlobs (slashed (Bundle.root dep)))
    ∧ length files = (4 * (1 + length deps))%nat.
Proof.
  intros Hdeps Hts deps.
  eexists (worldAfter config bundle w), _, (verifyFiles config bundle). split_and!.
  - apply generate_returns. by right.
  - apply lookup_after, lookup_code_verify, Hts.
  - reflexivity.
  - reflexivity.
  - unfold verifyFiles. fold deps. intros p [Hp|Hp]%elem_of_app; [by left|]. right.
    apply list_elem_of_In, in_flat_map in Hp as (d & Hd & Hp).
    apply list_elem_of_In in Hd, Hp. unfold depGlobs in Hp.
    destruct (findBundle config d) as [dep|] eqn:Hfind; [|by apply elem_of_nil in Hp].
    by exists d, dep.
  - unfold verifyFiles. fold deps. rewrite length_app.
    assert (Forall (λ d, ∃ dep, findBundle config d = Some dep) deps) as Hall.
    { apply Forall_forall. intros d Hd. by eapply deps_known_find. }
    assert (length (flat_map (depGlobs config) deps) = (4 * length deps)%nat) as ->.
    { clear -Hall. induction Hall as [|d ds [dep Hd] _ IH]; [done|].
      cbn [flat_map]. rewrite length_app, IH. unfold depGlobs. rewrite Hd.
      cbn [codeGlobs length]. lia. }
    cbn [codeGlobs length]. lia.
Qed.

(** C8. If bundle B declares bundle A among its dependencies and all the
    dependencies of B are configured, the call for B returns and the task
    [B:preBuild] it registers has [A:preBuild] among its prerequisites. This
    holds in particular when both bundles have index.ts. *)
Theorem C8_preBuild_chain (A B : Bundle.t) (config : Config.t) (w : World) :
  deps_known config B = true →
  Bundle.name A ∈ default [] (Bundle.dependencies B) →
  ∃ w' t,
    generate B config w = (Return (), w')
    ∧ lookup_task (Bundle.name B +:+ ":preBuild") (tasks w') = Some t
    ∧ (Bundle.name A +:+ ":preBuild") ∈ Task.dep t.
Proof.
  intros Hdeps HA. eexists (worldAfter config B w), _. split_and!.
  - apply generate_returns. by right.
  - apply lookup_after, lookup_preBuild.
  - cbn [Task.dep]. unfold preBuildDepsOf.
    apply elem_of_app. left. apply elem_of_app. right.
    destruct (Bundle.dependencies B) as [deps|]; [|by apply elem_of_nil in HA].
    cbn [lodash_map]. by apply (list_elem_of_fmap_2 (λ d, d +:+ ":preBuild")).
Qed.

(** C9. For a bundle with spec.ts whose dependencies are all configured, the
    task [name:spec:compile] hands [code.compile] the library flag [false]
    (and no globals), whatever the bundle declares; when the bundle also has
    index.ts, the task [name:code:compile] hands it the [library] key of the
    bundle as it is. *)
Theorem C9_library_flag (bundle : Bundle.t) (config : Config.t) (w : World) :
  deps_known config bundle = true →
  hasSpecEntry bundle = true →
  ∃ w', generate bundle config w = (Return (), w')
    ∧ (∃ t entry out minify,
         lookup_task (Bundle.name bundle +:+ ":spec:compile") (tasks w') = Some t
         ∧ Task.fn t = CodeCompile entry out minify (Some false) None)
    ∧ (hasCodeEntry bundle = true →
       ∃ t entry out minify,
         lookup_task (Bundle.name bundle +:+ ":code:compile") (tasks w') = Some t
         ∧ Task.fn t = CodeCompile entry out minify (Bundle.library bundle)
                         (Bundle.globals bundle)).
Proof.
  intros Hdeps Hspec. exists (worldAfter config bundle w). split_and!.
  - apply generate_returns. by right.
  - eexists _, _, _, _. split; [apply lookup_after, lookup_spec_compile, Hspec|done].
  - intros Hts. eexists _, _, _, _.
    split; [apply lookup_after, lookup_code_compile, Hts|done].
Qed.

(** C5. For a bundle with index.scss the style task [name:styles] is
    registered, whether the call then returns or throws (it returns when the
    dependencies are all configured), and its prerequisites are the
    intersection of the registry of style tasks, as it is when the call
    starts, with the ids [dep:styles] of the declared dependencies: an id is
    a prerequisite exactly when it is in both, each id occurs once, and the
    ids come in the order of the registry. When the call follows a run over
    earlier bundles that started from the empty registry, the prerequisites
    are exactly the style tasks of the earlier bundles that have index.scss
    and are declared as dependencies: such a dependency contributes its style
    task, and a dependency that produced no style task (no earlier bundle
    with that name has index.scss, or there is no such bundle at all)
    contributes nothing. *)
Theorem C5_style_prerequisites (bundle : Bundle.t) (config : Config.t) (w : World) :
  hasStyleEntry bundle = true →
  let deps := default [] (Bundle.dependencies bundle) in
  ∃ o w' t,
    generate bundle config w = (o, w')
    ∧ (deps_known config bundle = true → o = Return ())
    ∧ lookup_task (Bundle.name bundle +:+ ":styles") (tasks w') = Some t
    ∧ Task.dep t = lodash_intersection (styleTasks w) (map (λ d, d +:+ ":styles") deps)
    ∧ (∀ x, x ∈ Task.dep t ↔
            x ∈ styleTasks w ∧ ∃ d, d ∈ deps ∧ x = d +:+ ":styles")
    ∧ Task.dep t `sublist_of` styleTasks w
    ∧ NoDup (Task.dep t)
    ∧ (∀ d, (d +:+ ":styles") ∉ styleTasks w → (d +:+ ":styles") ∉ Task.dep t)
    ∧ (∀ earlier : list Bundle.t,
         generate_bundles earlier config fresh = (Return (), w) →
         (∀ x, x ∈ Task.dep t ↔
               ∃ A, A ∈ earlier ∧ hasStyleEntry A = true ∧ Bundle.name A ∈ deps
                    ∧ x = Bundle.name A +:+ ":styles")
         ∧ (∀ A, A ∈ earlier → hasStyleEntry A = true → Bundle.name A ∈ deps →
                 (Bundle.name A +:+ ":styles") ∈ Task.dep t)
         ∧ (∀ d, (∀ p, p ∈ earlier → Bundle.name p = d → hasStyleEntry p = false) →
                 (d +:+ ":styles") ∉ Task.dep t)).
Proof.
  intros Hscss deps.
  assert (lodash_map (Bundle.dependencies bundle) (λ d, d +:+ ":styles")
          = map (λ d, d +:+ ":styles") deps) as Hmap.
  { unfold deps. by destruct (Bundle.dependencies bundle). }
  assert (∀ x, x ∈ styleDeps bundle (styleTasks w) ↔
               x ∈ styleTasks w ∧ ∃ d, d ∈ deps ∧ x = d +:+ ":styles") as Hiff.
  { intros x. unfold styleDeps. rewrite Hmap, lodash_intersection_elem.
    rewrite (list_elem_of_fmap (λ d, d +:+ ":styles")).
    split; intros [? (d & ? & ?)]; (split; [done|]); by exists d. }
  destruct (lookup_styles_any config bundle w Hscss) as (o & w' & Hgen & Hret & _ & Hlook).
  eexists o, w', _. split_and!; [exact Hgen|exact Hret|exact Hlook| | | | | |].
  - cbn [Task.dep]. unfold styleDeps. by rewrite Hmap.
  - exact Hiff.
  - apply lodash_intersection_sublist.
  - apply lodash_intersection_NoDup.
  - intros d Hd Hin. cbn [Task.dep] in Hin. apply Hiff in Hin as [? _]. done.
  - intros earlier Hrun. cbn [Task.dep].
    assert (∀ x, x ∈ styleDeps bundle (styleTasks w) →
                 ∃ A, A ∈ earlier ∧ hasStyleEntry A = true ∧ Bundle.name A ∈ deps
                      ∧ x = Bundle.name A +:+ ":styles") as Honly.
    { intros x [Hreg (d & Hd & ->)]%Hiff.
      pose proof (registry_sound earlier config fresh (d +:+ ":styles")) as Hs.
      rewrite Hrun in Hs. destruct (Hs Hreg) as [Hfresh|(A & HA & HAscss & Heq)].
      - by apply elem_of_nil in Hfresh.
      - exists A. split_and!; [done|done| |done].
        apply append_inj_r in Heq. by rewrite <- Heq. }
    assert (∀ A, A ∈ earlier → hasStyleEntry A = true → Bundle.name A ∈ deps →
                 (Bundle.name A +:+ ":styles") ∈ styleDeps bundle (styleTasks w)) as Hevery.
    { intros A HA HAscss HAdep. apply Hiff. split.
      - by apply (registry_complete _ _ _ _ Hrun).
      - by exists (Bundle.name A). }
    split_and!.
    + intros x. split; [apply Honly|]. intros (A & HA & HAscss & HAdep & ->).
      by apply Hevery.
    + exact Hevery.
    + intros d Hnone Hin. apply Honly in Hin as (A & HA & HAscss & _ & Heq).
      apply append_inj_r in Heq. rewrite (Hnone A HA) in HAscss; [done|by symmetry].
Qed.


Lemma filter_generated (f : Task.t → bool) (config : Config.t) (bundle : Bundle.t)
    (registry : list string) :
  (∀ t, (∀ cfg, Task.fn t ≠ KarmaStart cfg) → f t = false) →
  List.filter f (generated config bundle registry)
  = if hasSpecEntry bundle then List.filter f (karmaTasks (Bundle.name bundle)) else [].
Proof.
  intros Hf.
  assert (∀ l, Forall (λ t, ∀ cfg, Task.fn t ≠ KarmaStart cfg) l → List.filter f l = [])
    as Hnone.
  { induction 1 as [|t l Ht _ IH]; [done|]. cbn [List.filter]. by rewrite (Hf t Ht). }
  unfold generated. rewrite !List.filter_app.
  rewrite (Hnone (earlyStages bundle registry)), (Hnone (codeStage config bundle registry)),
    (Hnone (buildStage bundle registry)).
  - unfold specStage. destruct (hasSpecEntry bundle); [|done].
    rewrite List.filter_app, Hnone; [done|]. by repeat constructor.
  - unfold buildStage. by repeat constructor.
  - unfold codeStage. destruct (hasCodeEntry bundle); by repeat constructor.
  - unfold earlyStages, templatesStage, imagesStage, stylesStage.
    destruct (hasTemplates bundle), (hasImages bundle), (hasStyleEntry bundle);
      by repeat constructor.
Qed.

(** C1 (amended). For a bundle with spec.ts whose dependencies are all
    configured, the call returns and, among the tasks it registers, exactly 7
    are test tasks, one per key of [specsTasks], and exactly 6 are debug
    variants: one for every key that contains a colon after its first
    character, which are all the keys but [spec]. *)
Theorem C1_test_matrix (bundle : Bundle.t) (config : Config.t) (w : World) :
  deps_known config bundle = true →
  hasSpecEntry bundle = true →
  ∃ w' registered,
    generate bundle config w = (Return (), w')
    ∧ tasks w' = tasks w ++ registered
    ∧ map Task.name (List.filter isTestTask registered)
      = map (λ k, Bundle.name bundle +:+ ":" +:+ k) (map fst specsTasks)
    ∧ length (List.filter isTestTask registered) = 7%nat
    ∧ map Task.name (List.filter isDebugTask registered)
      = map (λ k, Bundle.name bundle +:+ ":" +:+ k +:+ ":debug")
          (List.filter (λ k, bool_decide (indexOf k ":" > 0)) (map fst specsTasks))
    ∧ List.filter (λ k, bool_decide (indexOf k ":" > 0)) (map fst specsTasks)
      = ["spec:chrome"; "spec:ie"; "spec:firefox"; "spec:edge"; "spec:windows"; "spec:linux"]
    ∧ length (List.filter isDebugTask registered) = 6%nat.
Proof.
  intros Hdeps Hspec.
  exists (worldAfter config bundle w), (generated config bundle (styleTasks w)).
  assert (∀ t, (∀ cfg, Task.fn t ≠ KarmaStart cfg) → isTestTask t = false) as Htest.
  { intros t Ht. unfold isTestTask. destruct (Task.fn t); try done. by destruct (Ht cfg). }
  assert (∀ t, (∀ cfg, Task.fn t ≠ KarmaStart cfg) → isDebugTask t = false) as Hdebug.
  { intros t Ht. unfold isDebugTask. destruct (Task.fn t); try done. by destruct (Ht cfg). }
  rewrite !(filter_generated _ _ _ _ Htest), !(filter_generated _ _ _ _ Hdebug), Hspec.
  split_and!; try reflexivity.
  apply generate_returns. by right.
Qed.

(** C2 (amended). The table [specsTasks] maps spec to PhantomJS, spec:chrome
    to Chrome, spec:ie to IE, spec:firefox to Firefox, spec:edge to Edge,
    spec:windows to Chrome, Firefox, IE, Edge and spec:linux to Chrome,
    Firefox; and for a bundle with spec.ts whose dependencies are all
    configured, the task [name:key] of every entry depends on
    [name:spec:compile] and starts karma with the browsers of the entry, the
    compiled specs and their source map, and no [singleRun] setting. *)
Theorem C2_preset_table (bundle : Bundle.t) (config : Config.t) (w : World) :
  deps_known config bundle = true →
  hasSpecEntry bundle = true →
  specsTasks
  = [ ("spec", ["PhantomJS"]); ("spec:chrome", ["Chrome"]); ("spec:ie", ["IE"]);
      ("spec:firefox", ["Firefox"]); ("spec:edge", ["Edge"]);
      ("spec:windows", ["Chrome"; "Firefox"; "IE"; "Edge"]);
      ("spec:linux", ["Chrome"; "Firefox"]) ]
  ∧ ∃ w', generate bundle config w = (Return (), w')
      ∧ ∀ k v, (k, v) ∈ specsTasks →
          lookup_task (Bundle.name bundle +:+ ":" +:+ k) (tasks w')
          = Some (Task.mk (Bundle.name bundle +:+ ":" +:+ k)
                    [Bundle.name bundle +:+ ":spec:compile"]
                    (KarmaStart
                       (mkKarmaConfig "karma.conf.js" v
                          [ KPath (".tmp/" +:+ Bundle.name bundle +:+ ".spec.js");
                            KPattern (".tmp/" +:+ Bundle.name bundle +:+ ".spec.js.map")
                              false ]
                          None))).
Proof.
  intros Hdeps Hspec. split; [reflexivity|].
  exists (worldAfter config bundle w). split.
  - apply generate_returns. by right.
  - intros k v Hk. by apply lookup_after, lookup_karma_base.
Qed.

(** C6 (amended). bundle.js does not check dependency names. For a bundle
    that declares a dependency that is no bundle of the configuration: with
    index.ts the call throws the TypeError of reading [root] of [undefined],
    after the templates, images, assets and styles tasks are registered and
    before any other; without index.ts the call returns, all its tasks are
    registered, and the unknown name is among the prerequisites of
    [name:preBuild] as [dep:preBuild]. *)
Theorem C6_unknown_dependency (bundle : Bundle.t) (config : Config.t) (w : World)
    (d : string) :
  d ∈ default [] (Bundle.dependencies bundle) →
  findBundle config d = None →
  (hasCodeEntry bundle = true →
   ∃ w', generate bundle config w = (Throw (TypeError "root"), w')
     ∧ tasks w' = tasks w ++ earlyStages bundle (styleTasks w))
  ∧ (hasCodeEntry bundle = false →
     ∃ w' t, generate bundle config w = (Return (), w')
       ∧ tasks w' = tasks w ++ generated config bundle (styleTasks w)
       ∧ lookup_task (Bundle.name bundle +:+ ":preBuild") (tasks w') = Some t
       ∧ (d +:+ ":preBuild") ∈ Task.dep t).
Proof.
  intros Hd Hnone. split; intros Hts.
  - exists (worldAtThrow bundle w). split; [|done].
    apply generate_throws; [done|]. by eapply deps_unknown.
  - eexists (worldAfter config bundle w), _. split_and!.
    + apply generate_returns. by left.
    + done.
    + apply lookup_after, lookup_preBuild.
    + cbn [Task.dep]. unfold preBuildDepsOf.
      apply elem_of_app. left. apply elem_of_app. right.
      destruct (Bundle.dependencies bundle) as [deps|]; [|by apply elem_of_nil in Hd].
      cbn [lodash_map]. by apply (list_elem_of_fmap_2 (λ d, d +:+ ":preBuild")).
Qed.

(** * Further properties *)

(** ** Normalising a root folder *)

Lemma indexOf_from_found (needle s : string) (i : Z) :
  indexOf_from needle s i = -1 ∨ i ≤ indexOf_from needle s i.
Proof.
  revert i. induction s as [|c s IH]; intros i; cbn [indexOf_from].
  - destruct (String.prefix needle ""); [right; lia|by left].
  - destruct (String.prefix needle (String c s)); [right; lia|].
    destruct (IH (i + 1)) as [?|?]; [by left|right; lia].
Qed.

Lemma replace_absent (pat rep s : string) (i : Z) :
  0 ≤ i → indexOf_from pat s i = -1 → replace pat rep s = s.
Proof.
  revert i. induction s as [|c s IH]; intros i Hi; cbn [indexOf_from replace].
  - destruct (String.prefix pat ""); [lia|done].
  - destruct (String.prefix pat (String c s)); [lia|].
    intros H. f_equal. apply (IH (i + 1)); [lia|done].
Qed.

Lemma prefix_empty (s : string) : String.prefix "" s = true.
Proof. by destruct s. Qed.

Lemma prefix_slashes_snoc (c : ascii) (s : string) :
  String.prefix "//" (String c ((s +:+ "/") +:+ "/"))
  = String.prefix "//" (String c (s +:+ "/")).
Proof.
  destruct s as [|d s]; cbv [String.append]; fold String.append; cbn [String.prefix];
    repeat (destruct (ascii_dec _ _)); rewrite ?prefix_empty; reflexivity.
Qed.

Lemma replace_trailing_slashes (s : string) (i : Z) :
  0 ≤ i → indexOf_from "//" (s +:+ "/") i = -1 →
  replace "//" "/" ((s +:+ "/") +:+ "/") = s +:+ "/".
Proof.
  revert i. induction s as [|c s IH]; intros i Hi H; [done|].
  change (String c s +:+ "/") with (String c (s +:+ "/")) in *.
  change (String c (s +:+ "/") +:+ "/") with (String c ((s +:+ "/") +:+ "/")).
  cbn [indexOf_from] in H. cbn [replace]. rewrite prefix_slashes_snoc.
  destruct (String.prefix "//" (String c (s +:+ "/"))).
  - destruct (indexOf_from_found "//" "" i); lia.
  - f_equal. apply (IH (i + 1)); [lia|done].
Qed.

(** X1. A root folder that has no doubled slash, written with or without
    a trailing slash, is normalised to the same string: the folder followed
    by one slash. *)
Theorem slashed_trailing_slash (r : string) :
  indexOf (r +:+ "/") "//" = -1 →
  slashed r = r +:+ "/" ∧ slashed (r +:+ "/") = r +:+ "/".
Proof.
  unfold indexOf, slashed. intros H. split.
  - by apply (replace_absent _ _ _ 0).
  - by apply (replace_trailing_slashes _ 0).
Qed.

(** ** Resolving a dependency *)

Lemma lodash_find_first {A : Type} (p : A → bool) (pre post : list A) (x : A) :
  Forall (λ y, p y = false) pre → p x = true →
  lodash_find (pre ++ x :: post) p = Some x.
Proof.
  induction 1 as [|y pre Hy _ IH]; intros Hx; simpl; [by rewrite Hx|].
  rewrite Hy. by apply IH.
Qed.

Lemma lodash_find_none {A : Type} (p : A → bool) (l : list A) :
  lodash_find l p = None ↔ Forall (λ y, p y = false) l.
Proof.
  induction l as [|y l IH]; simpl; [split; [constructor|done]|].
  destruct (p y) eqn:Hy.
  - split; [done|]. intros H. apply Forall_cons in H as [? _]. congruence.
  - rewrite IH. split; [by constructor|]. by intros [_ ?]%Forall_cons.
Qed.

(** X2. Resolving a dependency never changes the world. It returns the four
    code patterns of the root of a bundle with that name when the
    configuration has one, and throws the TypeError of reading [root] of
    [undefined] exactly when it has none. *)
Theorem dependenciesCode_outcome (config : Config.t) (d : string) (w : World) :
  (d ∈ map Bundle.name (Config.bundles config) →
   ∃ dep, dep ∈ Config.bundles config ∧ Bundle.name dep = d
          ∧ dependenciesCode config d w = (Return (codeGlobs (slashed (Bundle.root dep))), w))
  ∧ (d ∉ map Bundle.name (Config.bundles config) →
     dependenciesCode config d w = (Throw (TypeError "root"), w)).
Proof.
  unfold dependenciesCode.
  destruct (lodash_find _ _) as [dep|] eqn:Hfind; split.
  - intros _. exists dep. split_and!; [| |done].
    + clear -Hfind. induction (Config.bundles config) as [|b bs IH]; [done|].
      simpl in Hfind. case_bool_decide; [injection Hfind as ->; by left|].
      right. by apply IH.
    + clear -Hfind. induction (Config.bundles config) as [|b bs IH]; [done|].
      simpl in Hfind. case_bool_decide; [by injection Hfind as ->|by apply IH].
  - intros Hd. destruct Hd. clear -Hfind.
    induction (Config.bundles config) as [|b bs IH]; [done|].
    simpl in Hfind. case_bool_decide; [subst d; by left|].
    right. by apply IH.
  - intros Hd. exfalso. apply lodash_find_none in Hfind.
    apply (list_elem_of_fmap Bundle.name) in Hd as (b & -> & Hb).
    rewrite Forall_forall in Hfind. specialize (Hfind b Hb).
    by case_bool_decide.
  - done.
Qed.

(** X3. When several bundles of the configuration have the name of a
    dependency, the code patterns come from the root of the first of them. *)
Theorem dependenciesCode_first_wins (config : Config.t) (pre post : list Bundle.t)
    (dep : Bundle.t) (w : World) :
  Config.bundles config = pre ++ dep :: post →
  Bundle.name dep ∉ map Bundle.name pre →
  dependenciesCode config (Bundle.name dep) w
  = (Return (codeGlobs (slashed (Bundle.root dep))), w).
Proof.
  intros Hbundles Hpre. unfold dependenciesCode. rewrite Hbundles.
  rewrite lodash_find_first; [done| |by apply bool_decide_eq_true].
  apply Forall_forall. intros b Hb. apply bool_decide_eq_false. intros Heq.
  apply Hpre. rewrite <- Heq. by apply (list_elem_of_fmap_2 Bundle.name).
Qed.

(** ** What every call registers *)

Lemma generate_registered (bundle : Bundle.t) (config : Config.t) (w : World) :
  ∃ o w', generate bundle config w = (o, w')
    ∧ tasks w' = tasks w ++ registeredBy config bundle (styleTasks w)
    ∧ o = (if throws config bundle then Throw (TypeError "root") else Return ()).
Proof.
  rewrite generate_outcome. unfold registeredBy, throws.
  destruct (_ && _); by eexists _, _.
Qed.

Lemma earlyStages_names (bundle : Bundle.t) (registry : list string) :
  map Task.name (earlyStages bundle registry)
  = map (λ s, Bundle.name bundle +:+ ":" +:+ s) (earlySuffixes bundle).
Proof.
  unfold earlyStages, earlySuffixes, templatesStage, imagesStage, stylesStage.
  by destruct (hasTemplates bundle), (hasImages bundle), (hasStyleEntry bundle).
Qed.

Lemma generated_names (config : Config.t) (bundle : Bundle.t) (registry : list string) :
  map Task.name (generated config bundle registry)
  = map (λ s, Bundle.name bundle +:+ ":" +:+ s) (earlySuffixes bundle ++ lateSuffixes bundle).
Proof.
  unfold generated. rewrite !List.map_app, earlyStages_names. f_equal.
  unfold lateSuffixes, codeStage, buildStage, specStage. rewrite !List.map_app.
  f_equal; [by destruct (hasCodeEntry bundle)|]. f_equal.
  by destruct (hasSpecEntry bundle).
Qed.

Lemma suffixes_NoDup (bundle : Bundle.t) :
  NoDup (earlySuffixes bundle ++ lateSuffixes bundle).
Proof.
  unfold earlySuffixes, lateSuffixes.
  destruct (hasTemplates bundle), (hasImages bundle), (hasStyleEntry bundle),
    (hasCodeEntry bundle), (hasSpecEntry bundle); compute_done.
Qed.

Lemma task_names_NoDup (name : string) (suffixes : list string) :
  NoDup suffixes → NoDup (map (λ s, name +:+ ":" +:+ s) suffixes).
Proof.
  apply (NoDup_fmap_2 (λ s, name +:+ ":" +:+ s)).
Qed.

(** X4. A call extends the registry of style tasks by the id of the style
    task of the bundle when the bundle has index.scss, and leaves it as it is
    otherwise, whether the call returns or throws. *)
Theorem generate_registry_step (bundle : Bundle.t) (config : Config.t) (w : World) :
  styleTasks (generate bundle config w).2
  = styleTasks w
      ++ (if hasStyleEntry bundle then [Bundle.name bundle +:+ ":styles"] else []).
Proof.
  rewrite generate_outcome, <- (stylesStage_names bundle (styleTasks w)).
  by destruct (_ && _).
Qed.

(** X5. The bundle is handed to [run.generate] only by a call that returns,
    and then only when the bundle has a [run] key: a call that throws never
    reaches the dev-server collaborator. *)
Theorem run_generate_last (bundle : Bundle.t) (config : Config.t) (w : World) :
  ∃ o w', generate bundle config w = (o, w')
    ∧ devServers w'
      = devServers w
          ++ match o with
             | Return _ => if is_undefined (Bundle.run bundle) then []
                           else [Bundle.name bundle]
             | Throw _ => []
             end.
Proof.
  rewrite generate_outcome. destruct (_ && _); eexists _, _; (split; [done|]).
  - cbn [worldAtThrow devServers]. by rewrite app_nil_r.
  - done.
Qed.

(** X6. The tasks that one call registers have pairwise different names,
    each made of the name of the bundle, a colon and a stage: no registration
    of a call replaces another one of the same call. *)
Theorem generate_names_distinct (bundle : Bundle.t) (config : Config.t) (w : World) :
  ∃ o w' registered,
    generate bundle config w = (o, w')
    ∧ tasks w' = tasks w ++ registered
    ∧ NoDup (map Task.name registered)
    ∧ ∀ t, t ∈ registered → ∃ s, Task.name t = Bundle.name bundle +:+ ":" +:+ s.
Proof.
  destruct (generate_registered bundle config w) as (o & w' & Hgen & Htasks & _).
  exists o, w', (registeredBy config bundle (styleTasks w)).
  pose proof (suffixes_NoDup bundle) as Hnodup.
  split_and!; [done|done| |]; unfold registeredBy; destruct (throws config bundle).
  - rewrite earlyStages_names. apply task_names_NoDup.
    by apply NoDup_app in Hnodup as [? _].
  - rewrite generated_names. by apply task_names_NoDup.
  - intros t Ht. apply (list_elem_of_fmap_2 Task.name) in Ht.
    rewrite earlyStages_names in Ht.
    apply list_elem_of_fmap in Ht as (s & -> & _). by exists s.
  - intros t Ht. apply (list_elem_of_fmap_2 Task.name) in Ht.
    rewrite generated_names in Ht.
    apply list_elem_of_fmap in Ht as (s & -> & _). by exists s.
Qed.

(** X7. A call that returns registers 4 tasks (assets, preBuild, build-tasks,
    build), one more for each of templates, images and styles that applies,
    2 more for a bundle with index.ts and 16 more for a bundle with spec.ts;
    a call that throws has registered the assets task and those of templates,
    images and styles that apply. *)
Theorem generate_task_count (bundle : Bundle.t) (config : Config.t) (w : World) :
  ∃ o w' registered,
    generate bundle config w = (o, w')
    ∧ tasks w' = tasks w ++ registered
    ∧ length registered
      = (let optional := Nat.b2n (hasTemplates bundle) + Nat.b2n (hasImages bundle)
                         + Nat.b2n (hasStyleEntry bundle) in
         match o with
         | Return _ => 4 + optional + 2 * Nat.b2n (hasCodeEntry bundle)
                       + 16 * Nat.b2n (hasSpecEntry bundle)
         | Throw _ => 1 + optional
         end)%nat.
Proof.
  destruct (generate_registered bundle config w) as (o & w' & Hgen & Htasks & ->).
  eexists _, w', (registeredBy config bundle (styleTasks w)).
  split_and!; [done|done|]. unfold registeredBy. destruct (throws config bundle).
  - rewrite <- (length_map Task.name), earlyStages_names, length_map.
    unfold earlySuffixes.
    by destruct (hasTemplates bundle), (hasImages bundle), (hasStyleEntry bundle).
  - rewrite <- (length_map Task.name), generated_names, length_map.
    unfold earlySuffixes, lateSuffixes.
    by destruct (hasTemplates bundle), (hasImages bundle), (hasStyleEntry bundle),
      (hasCodeEntry bundle), (hasSpecEntry bundle).
Qed.

Lemma lookup_task_NoDup (l : list Task.t) (t : Task.t) :
  NoDup (map Task.name l) → t ∈ l → lookup_task (Task.name t) l = Some t.
Proof.
  induction l as [|u l IH]; intros Hnodup Ht; [by apply elem_of_nil in Ht|].
  cbn [map] in Hnodup. apply NoDup_cons in Hnodup as [Hu Hl].
  cbn [lookup_task]. apply elem_of_cons in Ht as [-> | Ht].
  - rewrite (lookup_task_absent _ _ Hu). by rewrite decide_True.
  - by rewrite (IH Hl Ht).
Qed.

Lemma registered_NoDup (config : Config.t) (bundle : Bundle.t) (registry : list string) :
  NoDup (map Task.name (registeredBy config bundle registry)).
Proof.
  pose proof (suffixes_NoDup bundle) as Hnodup.
  unfold registeredBy. destruct (throws config bundle).
  - rewrite earlyStages_names. apply task_names_NoDup.
    by apply NoDup_app in Hnodup as [? _].
  - rewrite generated_names. by apply task_names_NoDup.
Qed.

(** A task that a call registers is the one found under its name after the
    call. *)
Lemma lookup_registered (config : Config.t) (bundle : Bundle.t) (w : World) (t : Task.t) :
  t ∈ registeredBy config bundle (styleTasks w) →
  lookup_task (Task.name t) (tasks (generate bundle config w).2) = Some t.
Proof.
  intros Ht. destruct (generate_registered bundle config w) as (o & w' & Hgen & Htasks & _).
  rewrite Hgen. cbn [snd]. rewrite Htasks, lookup_task_app.
  by rewrite (lookup_task_NoDup _ _ (registered_NoDup _ _ _) Ht).
Qed.

Lemma registered_suffix (config : Config.t) (bundle : Bundle.t) (registry : list string)
    (t : Task.t) :
  t ∈ registeredBy config bundle registry →
  ∃ s, s ∈ earlySuffixes bundle ++ lateSuffixes bundle
       ∧ Task.name t = Bundle.name bundle +:+ ":" +:+ s.
Proof.
  intros Ht. apply (list_elem_of_fmap_2 Task.name) in Ht.
  unfold registeredBy in Ht. destruct (throws config bundle).
  - rewrite earlyStages_names in Ht. apply list_elem_of_fmap in Ht as (s & -> & Hs).
    exists s. split; [|done]. apply elem_of_app. by left.
  - rewrite generated_names in Ht. apply list_elem_of_fmap in Ht as (s & -> & Hs).
    by exists s.
Qed.

Lemma registered_Forall (P : Task.t → Prop) (config : Config.t) (bundle : Bundle.t)
    (registry : list string) :
  Forall P (templatesStage bundle) → Forall P (imagesStage bundle) →
  P (assetsTask bundle) → Forall P (stylesStage bundle registry) →
  Forall P (codeStage config bundle registry) → Forall P (buildStage bundle registry) →
  Forall P (specStage config bundle registry) →
  Forall P (registeredBy config bundle registry).
Proof.
  intros Ht Hi Ha Hs Hc Hb Hsp.
  assert (Forall P (earlyStages bundle registry)) as Hearly.
  { unfold earlyStages. rewrite !Forall_app. split_and!; [done|done|by constructor|done]. }
  unfold registeredBy, generated. destruct (throws config bundle); [done|].
  rewrite !Forall_app. by split_and!.
Qed.

Lemma prefix_append (a b : string) : String.prefix a (a +:+ b) = true.
Proof.
  induction a as [|c a IH]; [apply prefix_empty|].
  change (String c a +:+ b) with (String c (a +:+ b)). cbn [String.prefix].
  by destruct (ascii_dec c c).
Qed.

Lemma lookup_build_stage (config : Config.t) (bundle : Bundle.t) (w : World) :
  throws config bundle = false →
  let name := Bundle.name bundle in
  let root := slashed (Bundle.root bundle) in
  let after := tasks (generate bundle config w).2 in
  lookup_task (name +:+ ":preBuild") after
  = Some (Task.mk (name +:+ ":preBuild") (preBuildDepsOf bundle (styleTasks w)) Noop)
  ∧ lookup_task (name +:+ ":build-tasks") after
    = Some (Task.mk (name +:+ ":build-tasks")
              (preBuildDepsOf bundle (styleTasks w) ++ buildDepsOf bundle)
              (CopyRootFiles [root +:+ "*"; "!" +:+ root +:+ "*.ts"; "!" +:+ root +:+ "*.scss"]
                 ("dist/" +:+ name)))
  ∧ lookup_task (name +:+ ":build") after
    = Some (Task.mk (name +:+ ":build") [name +:+ ":build-tasks"] Noop).
Proof.
  intros Hthrows name root after. unfold after.
  split_and!;
    (match goal with |- _ = Some ?t => apply (lookup_registered _ _ _ t) end);
    unfold registeredBy, generated, buildStage; rewrite Hthrows;
    rewrite !elem_of_app; right; right; left; rewrite !elem_of_cons; auto.
Qed.

(** X8. A bundle without index.ts is generated without exception, whatever
    its dependencies name; no task [name:code:verify] or [name:code:compile]
    is registered, and the prerequisites of [name:build-tasks] are those of
    [name:preBuild] followed by [name:assets] alone. *)
Theorem generate_without_code_entry (bundle : Bundle.t) (config : Config.t) (w : World) :
  hasCodeEntry bundle = false →
  ∃ w' registered pre bt,
    generate bundle config w = (Return (), w')
    ∧ tasks w' = tasks w ++ registered
    ∧ (∀ t, t ∈ registered →
         Task.name t ≠ Bundle.name bundle +:+ ":code:verify"
         ∧ Task.name t ≠ Bundle.name bundle +:+ ":code:compile")
    ∧ lookup_task (Bundle.name bundle +:+ ":preBuild") (tasks w') = Some pre
    ∧ lookup_task (Bundle.name bundle +:+ ":build-tasks") (tasks w') = Some bt
    ∧ Task.dep bt = Task.dep pre ++ [Bundle.name bundle +:+ ":assets"].
Proof.
  intros Hts.
  assert (throws config bundle = false) as Hthrows by (unfold throws; by rewrite Hts).
  destruct (generate_registered bundle config w) as (o & w' & Hgen & Htasks & ->).
  rewrite Hthrows in Hgen.
  assert (w' = (generate bundle config w).2) as Hw' by by rewrite Hgen.
  eexists w', (registeredBy config bundle (styleTasks w)), _, _.
  split_and!; [done|done| | | |].
  - intros t (s & Hs & ->)%registered_suffix.
    assert (Forall (λ s, s ≠ "code:verify" ∧ s ≠ "code:compile")
              (earlySuffixes bundle ++ lateSuffixes bundle)) as Hall.
    { unfold earlySuffixes, lateSuffixes. rewrite Hts.
      destruct (hasTemplates bundle), (hasImages bundle), (hasStyleEntry bundle),
        (hasSpecEntry bundle); compute_done. }
    rewrite Forall_forall in Hall. destruct (Hall s Hs) as [Hverify Hcompile].
    split; intros Heq; apply append_inj_l in Heq; by apply (append_inj_l ":") in Heq.
  - rewrite Hw'. apply (lookup_build_stage config bundle w Hthrows).
  - rewrite Hw'. apply (lookup_build_stage config bundle w Hthrows).
  - cbn [Task.dep]. unfold buildDepsOf. by rewrite Hts, app_nil_r.
Qed.

(** X9. For a bundle without spec.ts no task of the test pipeline is
    registered, whether the call returns or throws: no task injects specs or
    starts karma, and no name of a registered task continues the name of the
    bundle with [:spec]. *)
Theorem generate_without_spec_entry (bundle : Bundle.t) (config : Config.t) (w : World) :
  hasSpecEntry bundle = false →
  ∃ o w' registered,
    generate bundle config w = (o, w')
    ∧ tasks w' = tasks w ++ registered
    ∧ ∀ t, t ∈ registered →
        (∀ cfg, Task.fn t ≠ KarmaStart cfg)
        ∧ (∀ src specs starttag endtag dest,
             Task.fn t ≠ SpecInject src specs starttag endtag dest)
        ∧ (∀ s, Task.name t ≠ Bundle.name bundle +:+ ":spec" +:+ s).
Proof.
  intros Hspec.
  destruct (generate_registered bundle config w) as (o & w' & Hgen & Htasks & _).
  exists o, w', (registeredBy config bundle (styleTasks w)).
  split_and!; [done|done|].
  assert (Forall (λ t, (∀ cfg, Task.fn t ≠ KarmaStart cfg)
                       ∧ (∀ src specs starttag endtag dest,
                            Task.fn t ≠ SpecInject src specs starttag endtag dest))
            (registeredBy config bundle (styleTasks w))) as Hfn.
  { apply registered_Forall;
      unfold templatesStage, imagesStage, assetsTask, stylesStage, codeStage, buildStage,
        specStage; rewrite ?Hspec;
      try destruct (hasTemplates bundle); try destruct (hasImages bundle);
      try destruct (hasStyleEntry bundle); try destruct (hasCodeEntry bundle);
      by repeat constructor. }
  rewrite Forall_forall in Hfn.
  intros t Ht. destruct (Hfn t Ht) as [Hkarma Hinject]. split_and!; [done|done|].
  - intros s' Heq. apply registered_suffix in Ht as (s & Hs & Hname).
    rewrite Hname in Heq. apply append_inj_l in Heq.
    change (":spec" +:+ s') with (":" +:+ ("spec" +:+ s')) in Heq.
    apply (append_inj_l ":") in Heq.
    assert (Forall (λ s, String.prefix "spec" s = false)
              (earlySuffixes bundle ++ lateSuffixes bundle)) as Hall.
    { unfold earlySuffixes, lateSuffixes. rewrite Hspec.
      destruct (hasTemplates bundle), (hasImages bundle), (hasStyleEntry bundle),
        (hasCodeEntry bundle); compute_done. }
    rewrite Forall_forall in Hall. specialize (Hall s Hs).
    by rewrite Heq, prefix_append in Hall.
Qed.

(** X10. For a bundle with [angular: false] no task pre-caches templates or
    images, whatever files the bundle holds and whether the call returns or
    throws. *)
Theorem generate_angular_off (bundle : Bundle.t) (config : Config.t) (w : World) :
  Bundle.angular bundle = Some false →
  ∃ o w' registered,
    generate bundle config w = (o, w')
    ∧ tasks w' = tasks w ++ registered
    ∧ ∀ t, t ∈ registered →
        (∀ files name, Task.fn t ≠ TemplatesPreCache files name)
        ∧ (∀ files name, Task.fn t ≠ ImagesPreCache files name).
Proof.
  intros Hangular.
  destruct (generate_registered bundle config w) as (o & w' & Hgen & Htasks & _).
  exists o, w', (registeredBy config bundle (styleTasks w)).
  split_and!; [done|done|].
  assert (Forall (λ t, (∀ files name, Task.fn t ≠ TemplatesPreCache files name)
                       ∧ (∀ files name, Task.fn t ≠ ImagesPreCache files name))
            (registeredBy config bundle (styleTasks w))) as Hfn.
  { apply registered_Forall;
      unfold templatesStage, imagesStage, assetsTask, stylesStage, codeStage, buildStage,
        specStage, hasTemplates, hasImages, angularOn; rewrite ?Hangular;
      cbn [truthy orb andb is_undefined];
      try destruct (hasStyleEntry bundle); try destruct (hasCodeEntry bundle);
      try destruct (hasSpecEntry bundle); rewrite ?karmaTasks_eq;
      by repeat constructor. }
  by rewrite Forall_forall in Hfn.
Qed.

(** X11. A bundle without [angular] key is generated like the same bundle
    with [angular: true]: the same outcome, the same task names with the same
    prerequisites, the same registry of style tasks and the same dev
    servers. *)
Theorem generate_angular_default (bundle : Bundle.t) (config : Config.t) (w : World) :
  Bundle.angular bundle = None →
  ∃ o w1 w2,
    generate bundle config w = (o, w1)
    ∧ generate (with_angular (Some true) bundle) config w = (o, w2)
    ∧ map edges (tasks w1) = map edges (tasks w2)
    ∧ styleTasks w1 = styleTasks w2
    ∧ devServers w1 = devServers w2.
Proof.
  intros Hangular. rewrite !generate_outcome.
  destruct bundle as [name root deps angular library minify before folders globals run].
  cbn [Bundle.angular] in Hangular. subst angular.
  unfold worldAtThrow, worldAfter, generated, earlyStages, specStage, buildStage, codeStage,
    buildDepsOf, preBuildDepsOf, stylesStage, imagesStage, templatesStage, assetsTask,
    hasTemplates, hasImages, hasStyleEntry, hasCodeEntry, hasSpecEntry, deps_known,
    angularOn, with_angular.
  cbn [Bundle.name Bundle.root Bundle.dependencies Bundle.angular Bundle.assetFolders
         Bundle.run Bundle.beforeBuild truthy is_undefined orb andb].
  destruct (existsSync (slashed root +:+ "index.ts"));
    destruct (forallb _ _);
    destruct (nonempty (glob_sync _ [_]));
    destruct (nonempty (glob_sync _ (assetPaths _ _ _)));
    destruct (existsSync (slashed root +:+ "index.scss"));
    destruct (existsSync (slashed root +:+ "spec.ts"));
    cbn [andb negb]; eexists _, _, _; (split_and!; [done|done| |done|done]);
    cbn [tasks]; rewrite !List.map_app; reflexivity.
Qed.

(** X16. Every call registers the task [name:assets], before anything can
    throw: it has no prerequisite and copies, relative to the root, one
    pattern per declared asset folder, in the order of the declaration, to
    the output folder of the bundle; without [assetFolders] it copies
    nothing. *)
Theorem generate_assets_always (bundle : Bundle.t) (config : Config.t) (w : World) :
  let root := slashed (Bundle.root bundle) in
  lookup_task (Bundle.name bundle +:+ ":assets") (tasks (generate bundle config w).2)
  = Some (Task.mk (Bundle.name bundle +:+ ":assets") []
            (CopyAssets
               (map (λ f, root +:+ f +:+ "/**/*") (default [] (Bundle.assetFolders bundle)))
               root ("dist/" +:+ Bundle.name bundle))).
Proof.
  intros root.
  assert (assetPaths root "/**/*" (Bundle.assetFolders bundle)
          = map (λ f, root +:+ f +:+ "/**/*") (default [] (Bundle.assetFolders bundle)))
    as <- by by destruct (Bundle.assetFolders bundle).
  apply (lookup_registered _ _ _ (assetsTask bundle)).
  unfold registeredBy, generated, earlyStages.
  destruct (throws config bundle); rewrite !elem_of_app; [|left];
    right; right; left; by left.
Qed.

(** ** The test matrix and the prerequisite chains *)

(** Split a [Forall] over an explicit list into its elements. *)
Ltac forall_list :=
  cbn [map Task.name Task.dep];
  repeat first [apply Forall_nil_2 | apply Forall_cons_2 | apply Forall_app_2];
  cbn [map Task.name Task.dep].

Lemma deps_known_returns (config : Config.t) (bundle : Bundle.t) :
  deps_known config bundle = true → throws config bundle = false.
Proof. intros H. unfold throws. rewrite H. by destruct (hasCodeEntry bundle). Qed.

Lemma karmaEntry_registered (config : Config.t) (bundle : Bundle.t) (registry : list string)
    (k : string) (v : list string) (t : Task.t) :
  throws config bundle = false → hasSpecEntry bundle = true →
  (k, v) ∈ specsTasks → t ∈ karmaEntry (Bundle.name bundle) (k, v) →
  t ∈ registeredBy config bundle registry.
Proof.
  intros Hthrows Hspec Hk Ht. unfold registeredBy, generated, specStage.
  rewrite Hthrows, Hspec, !elem_of_app. do 4 right.
  apply list_elem_of_In, in_flat_map. exists (k, v).
  by rewrite <- !list_elem_of_In.
Qed.

(** X12. For a bundle with spec.ts whose dependencies are all configured
    and an entry of [specsTasks]: if the key has a colon after its first
    character, the task [name:key:debug] has the prerequisites, the
    configuration file, the browsers and the files of the task [name:key],
    and differs from it by [singleRun: false] alone; otherwise the call
    registers no task [name:key:debug]. *)
Theorem karma_debug_variant (bundle : Bundle.t) (config : Config.t) (w : World)
    (k : string) (v : list string) :
  deps_known config bundle = true →
  hasSpecEntry bundle = true →
  (k, v) ∈ specsTasks →
  ∃ w' registered base c,
    generate bundle config w = (Return (), w')
    ∧ tasks w' = tasks w ++ registered
    ∧ lookup_task (Bundle.name bundle +:+ ":" +:+ k) (tasks w') = Some base
    ∧ Task.fn base = KarmaStart c ∧ browsers c = v ∧ singleRun c = None
    ∧ if bool_decide (indexOf k ":" > 0)
      then ∃ debug,
             lookup_task (Bundle.name bundle +:+ ":" +:+ k +:+ ":debug") (tasks w')
             = Some debug
             ∧ Task.dep debug = Task.dep base
             ∧ Task.fn debug
               = KarmaStart (mkKarmaConfig (configFile c) (browsers c) (files c) (Some false))
      else ∀ t, t ∈ registered →
                Task.name t ≠ Bundle.name bundle +:+ ":" +:+ k +:+ ":debug".
Proof.
  intros Hdeps Hspec Hk. pose proof (deps_known_returns _ _ Hdeps) as Hthrows.
  destruct (generate_registered bundle config w) as (o & w' & Hgen & Htasks & ->).
  rewrite Hthrows in Hgen.
  assert (w' = (generate bundle config w).2) as Hw' by by rewrite Hgen.
  exists w', (registeredBy config bundle (styleTasks w)),
    (karmaBase (Bundle.name bundle) k v), (karmaConfig (Bundle.name bundle) v None).
  split_and!; [done|done| |done|done|done|].
  - rewrite Hw'. apply (lookup_registered _ _ _ (karmaBase (Bundle.name bundle) k v)).
    apply (karmaEntry_registered _ _ _ k v); [done|done|done|]. by left.
  - case_bool_decide as Hcolon.
    + exists (karmaDebug (Bundle.name bundle) k v). split_and!; [|done|done].
      rewrite Hw'. apply (lookup_registered _ _ _ (karmaDebug (Bundle.name bundle) k v)).
      apply (karmaEntry_registered _ _ _ k v); [done|done|done|].
      cbn [karmaEntry]. rewrite bool_decide_true by done. right. by left.
    + intros t (s & Hs & ->)%registered_suffix Heq.
      apply append_inj_l, (append_inj_l ":") in Heq. subst s.
      unfold specsTasks in Hk.
      repeat (apply elem_of_cons in Hk as [[= -> ->]|Hk]);
        try (by apply elem_of_nil in Hk);
        try (exfalso; apply Hcolon; by vm_compute).
      revert Hs. unfold earlySuffixes, lateSuffixes.
      destruct (hasTemplates bundle), (hasImages bundle), (hasStyleEntry bundle),
        (hasCodeEntry bundle), (hasSpecEntry bundle); compute_done.
Qed.

(** X13. For a bundle whose dependencies are all configured: [name:build]
    has [name:build-tasks] as its only prerequisite; [name:build-tasks] has
    the prerequisites of [name:preBuild], then [name:assets], then
    [name:code:compile] when the bundle has index.ts; [name:code:verify] has
    exactly the prerequisites of [name:preBuild] and is the only prerequisite
    of [name:code:compile]; [name:spec:compile] has [name:spec:verify],
    [name:spec:inject] and then the prerequisites of [name:preBuild]. *)
Theorem prerequisite_chains (bundle : Bundle.t) (config : Config.t) (w : World) :
  deps_known config bundle = true →
  let name := Bundle.name bundle in
  ∃ w' pre bt bd,
    generate bundle config w = (Return (), w')
    ∧ lookup_task (name +:+ ":preBuild") (tasks w') = Some pre
    ∧ lookup_task (name +:+ ":build-tasks") (tasks w') = Some bt
    ∧ lookup_task (name +:+ ":build") (tasks w') = Some bd
    ∧ Task.dep bd = [name +:+ ":build-tasks"]
    ∧ Task.dep bt
      = Task.dep pre ++ [name +:+ ":assets"]
          ++ (if hasCodeEntry bundle then [name +:+ ":code:compile"] else [])
    ∧ (hasCodeEntry bundle = true →
       ∃ verify compile,
         lookup_task (name +:+ ":code:verify") (tasks w') = Some verify
         ∧ lookup_task (name +:+ ":code:compile") (tasks w') = Some compile
         ∧ Task.dep verify = Task.dep pre
         ∧ Task.dep compile = [name +:+ ":code:verify"])
    ∧ (hasSpecEntry bundle = true →
       ∃ compile,
         lookup_task (name +:+ ":spec:compile") (tasks w') = Some compile
         ∧ Task.dep compile
           = [name +:+ ":spec:verify"; name +:+ ":spec:inject"] ++ Task.dep pre).
Proof.
  intros Hdeps name. pose proof (deps_known_returns _ _ Hdeps) as Hthrows.
  destruct (lookup_build_stage config bundle w Hthrows) as (Hpre & Hbt & Hbd).
  rewrite generate_returns in * by by right. cbn [snd] in *.
  eexists _, _, _, _. split_and!; [done|exact Hpre|exact Hbt|exact Hbd|done|done| |].
  - intros Hts. eexists _, _. split_and!;
      [apply lookup_after, lookup_code_verify, Hts
      |apply lookup_after, lookup_code_compile, Hts|done|done].
  - intros Hspec. eexists. split; [apply lookup_after, lookup_spec_compile, Hspec|done].
Qed.

(** X14. For a bundle whose dependencies are all configured, the
    prerequisites of [name:preBuild] are, in this order: the [beforeBuild]
    tasks, [dep:preBuild] for each declared dependency, then [name:templates],
    [name:images] and [name:styles], each only when its stage applies. *)
Theorem preBuild_prerequisites (bundle : Bundle.t) (config : Config.t) (w : World) :
  deps_known config bundle = true →
  let name := Bundle.name bundle in
  ∃ w' pre,
    generate bundle config w = (Return (), w')
    ∧ lookup_task (name +:+ ":preBuild") (tasks w') = Some pre
    ∧ Task.dep pre
      = default [] (Bundle.beforeBuild bundle)
          ++ map (λ d, d +:+ ":preBuild") (default [] (Bundle.dependencies bundle))
          ++ (if hasTemplates bundle then [name +:+ ":templates"] else [])
          ++ (if hasImages bundle then [name +:+ ":images"] else [])
          ++ (if hasStyleEntry bundle then [name +:+ ":styles"] else []).
Proof.
  intros Hdeps name. pose proof (deps_known_returns _ _ Hdeps) as Hthrows.
  destruct (lookup_build_stage config bundle w Hthrows) as (Hpre & _ & _).
  rewrite generate_returns in * by by right. cbn [snd] in *.
  eexists _, _. split_and!; [done|exact Hpre|].
  cbn [Task.dep]. unfold preBuildDepsOf, templatesStage, imagesStage.
  rewrite stylesStage_names, <- app_assoc. do 2 f_equal.
  - by destruct (Bundle.dependencies bundle).
  - by destruct (hasTemplates bundle), (hasImages bundle).
Qed.

Lemma named_by_call (config : Config.t) (bundle : Bundle.t) (registry : list string)
    (s : string) :
  s ∈ earlySuffixes bundle ++ lateSuffixes bundle →
  (Bundle.name bundle +:+ ":" +:+ s) ∈ map Task.name (generated config bundle registry).
Proof.
  intros Hs. rewrite generated_names.
  by apply (list_elem_of_fmap_2 (λ s, Bundle.name bundle +:+ ":" +:+ s)).
Qed.

(** X15. For a bundle whose dependencies are all configured, every
    prerequisite of every task that the call registers is a [beforeBuild]
    task, the task [dep:preBuild] of a declared dependency, a style task
    that was in the registry when the call started, or a task registered by
    the same call. *)
Theorem prerequisites_resolve (bundle : Bundle.t) (config : Config.t) (w : World) :
  deps_known config bundle = true →
  ∃ w' registered,
    generate bundle config w = (Return (), w')
    ∧ tasks w' = tasks w ++ registered
    ∧ ∀ t p, t ∈ registered → p ∈ Task.dep t →
        p ∈ default [] (Bundle.beforeBuild bundle)
        ∨ (∃ d, d ∈ default [] (Bundle.dependencies bundle) ∧ p = d +:+ ":preBuild")
        ∨ p ∈ styleTasks w
        ∨ p ∈ map Task.name registered.
Proof.
  intros Hdeps. pose proof (deps_known_returns _ _ Hdeps) as Hthrows.
  destruct (generate_registered bundle config w) as (o & w' & Hgen & Htasks & ->).
  rewrite Hthrows in Hgen.
  exists w', (registeredBy config bundle (styleTasks w)). split_and!; [done|done|].
  set (registry := styleTasks w).
  set (ok := λ p : string,
         p ∈ default [] (Bundle.beforeBuild bundle)
         ∨ (∃ d, d ∈ default [] (Bundle.dependencies bundle) ∧ p = d +:+ ":preBuild")
         ∨ p ∈ registry
         ∨ p ∈ map Task.name (registeredBy config bundle registry)).
  assert (∀ s, s ∈ earlySuffixes bundle ++ lateSuffixes bundle →
               ok (Bundle.name bundle +:+ ":" +:+ s)) as Hnamed.
  { intros s Hs. do 3 right. unfold registeredBy. rewrite Hthrows.
    by apply named_by_call. }
  assert (Forall ok (preBuildDepsOf bundle registry)) as Hpre.
  { unfold preBuildDepsOf. rewrite !Forall_app. split_and!.
    - apply Forall_forall. intros p Hp. by left.
    - apply Forall_forall. intros p Hp. right. left.
      destruct (Bundle.dependencies bundle) as [deps|]; [|by apply elem_of_nil in Hp].
      apply (list_elem_of_fmap (λ d, d +:+ ":preBuild")) in Hp as (d & -> & Hd).
      by exists d.
    - unfold templatesStage. destruct (hasTemplates bundle) eqn:Hc; [|apply Forall_nil_2].
      forall_list. apply (Hnamed "templates"). unfold earlySuffixes. rewrite Hc.
      rewrite !elem_of_app. left. left. by left.
    - unfold imagesStage. destruct (hasImages bundle) eqn:Hc; [|apply Forall_nil_2].
      forall_list. apply (Hnamed "images"). unfold earlySuffixes. rewrite Hc.
      rewrite !elem_of_app. left. right. left. by left.
    - unfold stylesStage. destruct (hasStyleEntry bundle) eqn:Hc; [|apply Forall_nil_2].
      forall_list. apply (Hnamed "styles"). unfold earlySuffixes. rewrite Hc.
      rewrite !elem_of_app. left. do 3 right. by left. }
  assert (Forall (λ t, Forall ok (Task.dep t)) (registeredBy config bundle registry)) as Hall.
  { apply registered_Forall.
    - unfold templatesStage. destruct (hasTemplates bundle); forall_list.
    - unfold imagesStage. destruct (hasImages bundle); forall_list.
    - apply Forall_nil_2.
    - unfold stylesStage. destruct (hasStyleEntry bundle); [|apply Forall_nil_2].
      forall_list. cbn [Task.dep]. apply Forall_forall. intros p Hp.
      do 2 right. left. unfold styleDeps in Hp.
      by apply lodash_intersection_elem in Hp as [? _].
    - unfold codeStage. destruct (hasCodeEntry bundle) eqn:Hts; [|apply Forall_nil_2].
      remember (preBuildDepsOf bundle registry) as pre in *.
      forall_list; [exact Hpre|]. apply (Hnamed "code:verify").
      unfold lateSuffixes. rewrite Hts, !elem_of_app. right. left. by left.
    - unfold buildStage, buildDepsOf.
      remember (preBuildDepsOf bundle registry) as pre in *.
      forall_list; [exact Hpre|exact Hpre| | |].
      + apply (Hnamed "assets"). unfold earlySuffixes.
        rewrite !elem_of_app. left. right. right. left. by left.
      + destruct (hasCodeEntry bundle) eqn:Hts; [|apply Forall_nil_2]. forall_list.
        apply (Hnamed "code:compile").
        unfold lateSuffixes. rewrite Hts, !elem_of_app. right. left. right. by left.
      + apply (Hnamed "build-tasks"). unfold lateSuffixes. rewrite !elem_of_app.
        right. right. left. right. by left.
    - unfold specStage. destruct (hasSpecEntry bundle) eqn:Hspec; [|apply Forall_nil_2].
      assert (∀ s, s ∈ ["spec:inject"; "spec:verify"; "spec:compile"] →
                   ok (Bundle.name bundle +:+ ":" +:+ s)) as Hs.
      { intros s Hs. apply Hnamed. unfold lateSuffixes. rewrite Hspec, !elem_of_app.
        do 3 right. by left. }
      rewrite karmaTasks_eq. unfold karmaBase, karmaDebug.
      remember (preBuildDepsOf bundle registry) as pre in *.
      forall_list; try exact Hpre;
        first [apply (Hs "spec:verify")|apply (Hs "spec:inject")|apply (Hs "spec:compile")];
        compute_done. }
  intros t p Ht Hp. rewrite Forall_forall in Hall. specialize (Hall t Ht).
  rewrite Forall_forall in Hall. exact (Hall p Hp).
Qed.

End Generate.

(** * The example project *)

(** C7. Evaluation at the example: the bundle [app] declares the asset
    folder [assets]. The detection of the images stage ignores the files of
    that folder, but the file list handed to [images.preCache] has no
    exclusion at all: the paths built from the asset folders are passed as
    further patterns to include, and the first pattern already selects the
    image inside the asset folder. *)
Theorem C7_images_keep_asset_folders :
  let w' := (generate ex_existsSync ex_glob_sync ex_app ex_config fresh).2 in
  ex_glob_sync "src/**/*.svg" (assetPaths "src/" "/**/*" (Bundle.assetFolders ex_app))
  = ["src/img/logo.svg"]
  ∧ lookup_task "app:images" (tasks w')
    = Some (Task.mk "app:images" []
              (ImagesPreCache ["src/**/*.svg"; "src/assets/**/*/*.svg"] "app"))
  ∧ forallb (λ p, negb (isNegated p)) ["src/**/*.svg"; "src/assets/**/*/*.svg"] = true
  ∧ "src/assets/icons/star.svg" ∈ ex_project
  ∧ glob_match "src/assets/**/*" "src/assets/icons/star.svg" = true
  ∧ glob_match "src/**/*.svg" "src/assets/icons/star.svg" = true
  ∧ glob_match "src/assets/**/*/*.svg" "src/assets/icons/star.svg" = true.
Proof. cbv zeta. split_and!; try (vm_compute; reflexivity). compute_done. Qed.

(** The sibling stage does exclude: the list handed to [templates.preCache]
    negates the pattern that its detection ignores. *)
Example templates_exclude_root_pages :
  lookup_task "app:templates"
    (tasks (generate ex_existsSync ex_glob_sync ex_app ex_config fresh).2)
  = Some (Task.mk "app:templates" []
            (TemplatesPreCache ["src/**/*.html"; "!src/*.html"] "app")).
Proof. vm_compute. reflexivity. Qed.

(** The prerequisites follow the order of the registry, not the order in
    which the dependencies are declared. *)
Example intersection_registry_order :
  lodash_intersection ["a:styles"; "b:styles"; "c:styles"]
    (map (λ d, d +:+ ":styles") ["c"; "missing"; "a"])
  = ["a:styles"; "c:styles"].
Proof. vm_compute. reflexivity. Qed.

(** [app] depends on [core], which depends on [base]: the files verified
    for [app] are those of [app] and [core], and no pattern of the list
    selects the entry point of [base]. *)
Example scenario_transitive_dependency :
  ∃ t files,
    lookup_task "app:code:verify"
      (tasks (generate ex_existsSync ex_glob_sync ex_app ex_config fresh).2) = Some t
    ∧ Task.fn t = CodeVerify files
    ∧ files = [ "src/**/*.ts"; "!src/spec.ts"; "!src/**/*.spec.ts"; "!src/spec/**/*";
                "lib/**/*.ts"; "!lib/spec.ts"; "!lib/**/*.spec.ts"; "!lib/spec/**/*" ]
    ∧ forallb (λ p, negb (glob_match p "base/index.ts")) files = true.
Proof. eexists _, _. split_and!; vm_compute; reflexivity. Qed.

(** ** Witnesses *)

Lemma C3_minify_flag_witness :
  ∃ w', generate ex_existsSync ex_glob_sync ex_self ex_config fresh = (Return (), w')
    ∧ (∃ t entry out library globals,
         lookup_task "self:code:compile" (tasks w') = Some t
         ∧ Task.fn t = CodeCompile entry out false library globals)
    ∧ (∃ t entry out library globals,
         lookup_task "self:spec:compile" (tasks w') = Some t
         ∧ Task.fn t = CodeCompile entry out false library globals).
Proof.
  destruct (C3_minify_flag ex_existsSync ex_glob_sync ex_self ex_config fresh)
    as (w' & Hgen & Hcode & Hspec); [vm_compute; reflexivity|].
  exists w'. split_and!; [exact Hgen|apply Hcode; vm_compute; reflexivity|apply Hspec; vm_compute; reflexivity].
Defined.

Lemma C4_verify_files_witness :
  ∃ w' t files,
    generate ex_existsSync ex_glob_sync ex_app ex_config fresh = (Return (), w')
    ∧ lookup_task "app:code:verify" (tasks w') = Some t
    ∧ Task.fn t = CodeVerify files
    ∧ files = [ "src/**/*.ts"; "!src/spec.ts"; "!src/**/*.spec.ts"; "!src/spec/**/*";
                "lib/**/*.ts"; "!lib/spec.ts"; "!lib/**/*.spec.ts"; "!lib/spec/**/*" ]
    ∧ length files = 8%nat.
Proof.
  destruct (C4_verify_files ex_existsSync ex_glob_sync ex_app ex_config fresh)
    as (w' & t & files & Hgen & Hlook & Hfn & Hfiles & _ & Hlen);
    [vm_compute; reflexivity|vm_compute; reflexivity|].
  exists w', t, files. split_and!; [exact Hgen|exact Hlook|exact Hfn|exact Hfiles|exact Hlen].
Defined.

Lemma C5_style_prerequisites_witness :
  let w := (generate_bundles ex_existsSync ex_glob_sync [ex_base; ex_core; ex_empty]
              ex_config_gaps fresh).2 in
  ∃ w' t,
    generate ex_existsSync ex_glob_sync ex_dependent ex_config_gaps w
    = (Throw (TypeError "root"), w')
    ∧ lookup_task "dependent:styles" (tasks w') = Some t
    ∧ Task.dep t = ["core:styles"]
    ∧ "core:styles" ∈ Task.dep t
    ∧ ("empty:styles" ∉ Task.dep t)
    ∧ ("ghost:styles" ∉ Task.dep t).
Proof.
  intros w.
  destruct (C5_style_prerequisites ex_existsSync ex_glob_sync ex_dependent ex_config_gaps w)
    as (o & w' & t & Hgen & _ & Hlook & Hdep & _ & _ & _ & _ & Hrun);
    [vm_compute; reflexivity|].
  destruct (Hrun [ex_base; ex_core; ex_empty]) as (_ & Hevery & Hnone);
    [vm_compute; reflexivity|].
  assert (o = Throw (TypeError "root")) as ->.
  { assert ((generate ex_existsSync ex_glob_sync ex_dependent ex_config_gaps w).1
            = Throw (TypeError "root")) as Ho by (vm_compute; reflexivity).
    by rewrite Hgen in Ho. }
  exists w', t. split_and!; [exact Hgen|exact Hlook|exact Hdep| | |].
  - apply (Hevery ex_core); [compute_done|vm_compute; reflexivity|compute_done].
  - apply (Hnone "empty"). intros p Hp Hname.
    repeat (apply elem_of_cons in Hp as [-> | Hp]);
      [vm_compute in Hname; discriminate Hname|vm_compute in Hname; discriminate Hname
      |vm_compute; reflexivity|].
    apply elem_of_nil in Hp. destruct Hp.
  - apply (Hnone "ghost"). intros p Hp Hname.
    repeat (apply elem_of_cons in Hp as [-> | Hp]);
      [vm_compute in Hname; discriminate Hname..|].
    apply elem_of_nil in Hp. destruct Hp.
Defined.

Lemma C8_preBuild_chain_witness :
  ∃ w' t,
    generate ex_existsSync ex_glob_sync ex_app ex_config fresh = (Return (), w')
    ∧ lookup_task "app:preBuild" (tasks w') = Some t
    ∧ "core:preBuild" ∈ Task.dep t.
Proof.
  apply (C8_preBuild_chain ex_existsSync ex_glob_sync ex_core ex_app ex_config fresh);
    [vm_compute; reflexivity|compute_done].
Defined.

Lemma C9_library_flag_witness :
  ∃ w', generate ex_existsSync ex_glob_sync ex_app ex_config fresh = (Return (), w')
    ∧ (∃ t entry out minify,
         lookup_task "app:spec:compile" (tasks w') = Some t
         ∧ Task.fn t = CodeCompile entry out minify (Some false) None)
    ∧ (∃ t entry out minify,
         lookup_task "app:code:compile" (tasks w') = Some t
         ∧ Task.fn t = CodeCompile entry out minify (Some true) None).
Proof.
  destruct (C9_library_flag ex_existsSync ex_glob_sync ex_app ex_config fresh)
    as (w' & Hgen & Hspec & Hcode); [vm_compute; reflexivity|vm_compute; reflexivity|].
  exists w'. split_and!; [exact Hgen|exact Hspec|apply Hcode; vm_compute; reflexivity].
Defined.


Lemma C1_test_matrix_witness :
  ∃ w' registered,
    generate ex_existsSync ex_glob_sync ex_app ex_config fresh = (Return (), w')
    ∧ tasks w' = tasks fresh ++ registered
    ∧ map Task.name (List.filter isTestTask registered)
      = [ "app:spec"; "app:spec:chrome"; "app:spec:ie"; "app:spec:firefox";
          "app:spec:edge"; "app:spec:windows"; "app:spec:linux" ]
    ∧ map Task.name (List.filter isDebugTask registered)
      = [ "app:spec:chrome:debug"; "app:spec:ie:debug"; "app:spec:firefox:debug";
          "app:spec:edge:debug"; "app:spec:windows:debug"; "app:spec:linux:debug" ].
Proof.
  destruct (C1_test_matrix ex_existsSync ex_glob_sync ex_app ex_config fresh)
    as (w' & registered & Hgen & Htasks & Htest & _ & Hdebug & Hkeys & _);
    [vm_compute; reflexivity|vm_compute; reflexivity|].
  exists w', registered. split_and!; [exact Hgen|exact Htasks|exact Htest|].
  rewrite Hdebug, Hkeys. reflexivity.
Defined.

Lemma C2_preset_table_witness :
  ∃ w', generate ex_existsSync ex_glob_sync ex_app ex_config fresh = (Return (), w')
    ∧ lookup_task "app:spec:linux" (tasks w')
      = Some (Task.mk "app:spec:linux" ["app:spec:compile"]
                (KarmaStart
                   (mkKarmaConfig "karma.conf.js" ["Chrome"; "Firefox"]
                      [KPath ".tmp/app.spec.js"; KPattern ".tmp/app.spec.js.map" false]
                      None))).
Proof.
  destruct (C2_preset_table ex_existsSync ex_glob_sync ex_app ex_config fresh)
    as (_ & w' & Hgen & Hall); [vm_compute; reflexivity|vm_compute; reflexivity|].
  exists w'. split; [exact Hgen|].
  apply (Hall "spec:linux" ["Chrome"; "Firefox"]). compute_done.
Defined.

Lemma C6_unknown_dependency_witness :
  ∃ w' t,
    generate ex_existsSync ex_glob_sync ex_widget ex_config fresh = (Return (), w')
    ∧ lookup_task "widget:preBuild" (tasks w') = Some t
    ∧ "ghost:preBuild" ∈ Task.dep t.
Proof.
  destruct (C6_unknown_dependency ex_existsSync ex_glob_sync ex_widget ex_config fresh "ghost")
    as (_ & Hreturns); [compute_done|vm_compute; reflexivity|].
  destruct Hreturns as (w' & t & Hgen & _ & Hlook & Hdep); [vm_compute; reflexivity|].
  by exists w', t.
Defined.

(** ** Counterexamples *)

(** C1 as stated: the bundle [app] has spec.ts, yet its debug variants are
    not 4, and one of them belongs to spec:windows. *)
Lemma C1_counterexample :
  let registered := tasks (generate ex_existsSync ex_glob_sync ex_app ex_config fresh).2 in
  hasSpecEntry ex_existsSync ex_app = true
  ∧ length (List.filter isDebugTask registered) ≠ 4%nat
  ∧ ¬ (∀ t, t ∈ List.filter isDebugTask registered →
            Task.name t ∈ [ "app:spec:chrome:debug"; "app:spec:ie:debug";
                            "app:spec:firefox:debug"; "app:spec:edge:debug" ]).
Proof.
  cbv zeta. split_and!.
  - reflexivity.
  - vm_compute. discriminate.
  - intros H.
    specialize (H (karmaDebug "app" "spec:windows" ["Chrome"; "Firefox"; "IE"; "Edge"])).
    revert H. apply (bool_decide_unpack _). vm_compute. exact I.
Qed.

(** C2 as stated: the task [app:spec] starts karma without [singleRun: true],
    and the table has no browser called Headless. *)
Lemma C2_counterexample :
  let registered := tasks (generate ex_existsSync ex_glob_sync ex_app ex_config fresh).2 in
  hasSpecEntry ex_existsSync ex_app = true
  ∧ ¬ (∃ t cfg, lookup_task "app:spec" registered = Some t
                ∧ Task.fn t = KarmaStart cfg ∧ singleRun cfg = Some true)
  ∧ ("spec", ["Headless"]) ∉ specsTasks.
Proof.
  cbv zeta. split_and!.
  - reflexivity.
  - intros (t & cfg & Hlook & Hfn & Hrun). vm_compute in Hlook.
    injection Hlook as <-. cbn in Hfn. injection Hfn as <-. discriminate Hrun.
  - compute_done.
Qed.

(** C6 as stated: the bundle [widget] names the dependency [ghost], which is
    no bundle of the configuration, and its generation returns without any
    fault. *)
Lemma C6_counterexample :
  "ghost" ∈ default [] (Bundle.dependencies ex_widget)
  ∧ ("ghost" ∉ map Bundle.name (Config.bundles ex_config))
  ∧ (generate ex_existsSync ex_glob_sync ex_widget ex_config fresh).1 = Return ().
Proof. split_and!; [compute_done|compute_done|vm_compute; reflexivity]. Qed.


(** ** Witnesses of the further properties *)

Lemma slashed_trailing_slash_witness :
  slashed "src" = "src/" ∧ slashed "src/" = "src/".
Proof. apply (slashed_trailing_slash "src"). vm_compute. reflexivity. Defined.

Lemma dependenciesCode_first_wins_witness :
  dependenciesCode ex_config_shadowed "core" fresh
  = (Return ["lib/**/*.ts"; "!lib/spec.ts"; "!lib/**/*.spec.ts"; "!lib/spec/**/*"], fresh).
Proof.
  apply (dependenciesCode_first_wins ex_config_shadowed [ex_base] [ex_shadow] ex_core fresh);
    [vm_compute; reflexivity|compute_done].
Defined.

Lemma generate_without_code_entry_witness :
  "ghost" ∈ default [] (Bundle.dependencies ex_widget)
  ∧ ∃ w' registered pre bt,
      generate ex_existsSync ex_glob_sync ex_widget ex_config fresh = (Return (), w')
      ∧ tasks w' = tasks fresh ++ registered
      ∧ (∀ t, t ∈ registered →
           Task.name t ≠ "widget:code:verify" ∧ Task.name t ≠ "widget:code:compile")
      ∧ lookup_task "widget:preBuild" (tasks w') = Some pre
      ∧ lookup_task "widget:build-tasks" (tasks w') = Some bt
      ∧ Task.dep bt = Task.dep pre ++ ["widget:assets"].
Proof.
  split; [compute_done|].
  apply (generate_without_code_entry ex_existsSync ex_glob_sync ex_widget ex_config fresh).
  vm_compute. reflexivity.
Defined.

Lemma generate_without_spec_entry_witness :
  ∃ o w' registered,
    generate ex_existsSync ex_glob_sync ex_core ex_config fresh = (o, w')
    ∧ tasks w' = tasks fresh ++ registered
    ∧ ∀ t, t ∈ registered →
        (∀ cfg, Task.fn t ≠ KarmaStart cfg)
        ∧ (∀ src specs starttag endtag dest,
             Task.fn t ≠ SpecInject src specs starttag endtag dest)
        ∧ (∀ s, Task.name t ≠ "core:spec" +:+ s).
Proof.
  apply (generate_without_spec_entry ex_existsSync ex_glob_sync ex_core ex_config fresh).
  vm_compute. reflexivity.
Defined.

Lemma generate_angular_off_witness :
  nonempty (ex_glob_sync "src/**/*.html" ["src/*.html"]) = true
  ∧ nonempty (ex_glob_sync "src/**/*.svg" []) = true
  ∧ ∃ o w' registered,
      generate ex_existsSync ex_glob_sync ex_plain ex_config fresh = (o, w')
      ∧ tasks w' = tasks fresh ++ registered
      ∧ ∀ t, t ∈ registered →
          (∀ files name, Task.fn t ≠ TemplatesPreCache files name)
          ∧ (∀ files name, Task.fn t ≠ ImagesPreCache files name).
Proof.
  split_and!; [vm_compute; reflexivity|vm_compute; reflexivity|].
  apply (generate_angular_off ex_existsSync ex_glob_sync ex_plain ex_config fresh).
  reflexivity.
Defined.

Lemma generate_angular_default_witness :
  ∃ o w1 w2,
    generate ex_existsSync ex_glob_sync ex_app ex_config fresh = (o, w1)
    ∧ generate ex_existsSync ex_glob_sync (with_angular (Some true) ex_app) ex_config fresh
      = (o, w2)
    ∧ map edges (tasks w1) = map edges (tasks w2)
    ∧ styleTasks w1 = styleTasks w2
    ∧ devServers w1 = devServers w2.
Proof.
  apply (generate_angular_default ex_existsSync ex_glob_sync ex_app ex_config fresh).
  reflexivity.
Defined.

Lemma karma_debug_variant_witness :
  ∃ w' base debug c,
    generate ex_existsSync ex_glob_sync ex_app ex_config fresh = (Return (), w')
    ∧ lookup_task "app:spec:windows" (tasks w') = Some base
    ∧ lookup_task "app:spec:windows:debug" (tasks w') = Some debug
    ∧ Task.fn base = KarmaStart c
    ∧ browsers c = ["Chrome"; "Firefox"; "IE"; "Edge"]
    ∧ Task.dep debug = Task.dep base
    ∧ Task.fn debug
      = KarmaStart (mkKarmaConfig (configFile c) (browsers c) (files c) (Some false)).
Proof.
  destruct (karma_debug_variant ex_existsSync ex_glob_sync ex_app ex_config fresh
              "spec:windows" ["Chrome"; "Firefox"; "IE"; "Edge"])
    as (w' & registered & base & c & Hgen & _ & Hbase & Hfn & Hbrowsers & _ & Hdebug);
    [vm_compute; reflexivity|vm_compute; reflexivity|compute_done|].
  destruct Hdebug as (debug & Hlook & Hdep & Hfnd).
  exists w', base, debug, c. by split_and!.
Defined.

Lemma prerequisite_chains_witness :
  ∃ w' pre bt verify compile,
    generate ex_existsSync ex_glob_sync ex_app ex_config fresh = (Return (), w')
    ∧ lookup_task "app:preBuild" (tasks w') = Some pre
    ∧ lookup_task "app:build-tasks" (tasks w') = Some bt
    ∧ Task.dep bt = Task.dep pre ++ ["app:assets"; "app:code:compile"]
    ∧ lookup_task "app:code:verify" (tasks w') = Some verify
    ∧ Task.dep verify = Task.dep pre
    ∧ lookup_task "app:spec:compile" (tasks w') = Some compile
    ∧ Task.dep compile = ["app:spec:verify"; "app:spec:inject"] ++ Task.dep pre.
Proof.
  destruct (prerequisite_chains ex_existsSync ex_glob_sync ex_app ex_config fresh)
    as (w' & pre & bt & bd & Hgen & Hpre & Hbt & _ & _ & Hdep & Hcode & Hspec);
    [vm_compute; reflexivity|].
  destruct Hcode as (verify & _ & Hverify & _ & Hvdep & _); [vm_compute; reflexivity|].
  destruct Hspec as (compile & Hcompile & Hcdep); [vm_compute; reflexivity|].
  exists w', pre, bt, verify, compile. by split_and!.
Defined.

Lemma preBuild_prerequisites_witness :
  ∃ w' pre,
    generate ex_existsSync ex_glob_sync ex_app ex_config fresh = (Return (), w')
    ∧ lookup_task "app:preBuild" (tasks w') = Some pre
    ∧ Task.dep pre = ["core:preBuild"; "app:templates"; "app:images"; "app:styles"].
Proof.
  apply (preBuild_prerequisites ex_existsSync ex_glob_sync ex_app ex_config fresh).
  vm_compute. reflexivity.
Defined.

Lemma prerequisites_resolve_witness :
  let w := (generate_bundles ex_existsSync ex_glob_sync [ex_base; ex_core] ex_config fresh).2 in
  ∃ w' registered,
    generate ex_existsSync ex_glob_sync ex_app ex_config w = (Return (), w')
    ∧ tasks w' = tasks w ++ registered
    ∧ ∀ t p, t ∈ registered → p ∈ Task.dep t →
        p ∈ []
        ∨ (∃ d, d ∈ ["core"] ∧ p = d +:+ ":preBuild")
        ∨ p ∈ ["base:styles"; "core:styles"]
        ∨ p ∈ map Task.name registered.
Proof.
  intros w.
  apply (prerequisites_resolve ex_existsSync ex_glob_sync ex_app ex_config w).
  vm_compute. reflexivity.
Defined.
